(** * Announcements endpoints of the High School Management System API

    A shallow embedding of [src/backend/routers/announcements.py]: the five
    request handlers ([get_announcements], [get_announcement],
    [create_announcement], [update_announcement], [delete_announcement]) and
    the helper [serialize_announcement], written as programs of a small
    state-and-exception monad over the two MongoDB collections the module
    imports from [..database].

    Python dictionaries are finite maps from field names to BSON values,
    exceptions are values of [exn], and the storage operations the handlers
    call ([find_one], [find(...).sort(...)], [insert_one], [update_one],
    [delete_one]) are functions on the list of stored documents.  The
    library functions whose grammar the module does not fix
    ([datetime.fromisoformat], [datetime.isoformat], [ObjectId(...)],
    [str(ObjectId)]) are the fields of the class [Runtime]; a reference
    instance is given in [Module Reference]. *)

From Stdlib Require Import ZArith String Ascii List Sorted.
From stdpp Require Import base option list gmap strings sorting.

Local Open Scope string_scope.
Local Open Scope Z_scope.

(** ** Python values the handlers manipulate *)

(** [datetime.datetime]: the calendar fields and the UTC offset of an aware
    value in seconds ([None] for a naive one). *)
Record datetime := mk_datetime {
  year : Z; month : Z; day : Z;
  hour : Z; minute : Z; second : Z; microsecond : Z;
  utcoffset : option Z
}.

(** [bson.ObjectId]: twelve bytes, read as a number. *)
Definition oid : Type := N.

(** BSON values found in the fields of the documents of this module. *)
Inductive value :=
  | VStr (s : string)
  | VOid (o : oid)
  | VDate (millis : Z).

Global Instance value_eq_dec : EqDecision value.
Proof. solve_decision. Defined.

(** A document (a Python [dict] with string keys). *)
Abbreviation doc := (gmap string value).

(** Exceptions raised in the module or by the libraries it calls. *)
Inductive exn :=
  | HTTPException (status_code : Z) (detail : string)
  | ValueError
  | TypeError
  | AttributeError
  | DuplicateKeyError.

Global Instance exn_eq_dec : EqDecision exn.
Proof. solve_decision. Defined.

(** The error taxonomy of the specification, read off the status code and
    the detail text of the raised [HTTPException]. *)
Definition Unauthorized : exn := HTTPException 401 "Invalid teacher credentials".
Definition InvalidIdentifier : exn := HTTPException 400 "Invalid announcement ID format".
Definition NotFound : exn := HTTPException 404 "Announcement not found".
Definition InvalidDateOrder : exn :=
  HTTPException 400 "Start date must be before expiration date".

Definition InvalidDate (e : exn) : Prop :=
  e = HTTPException 400 "Invalid date format. Use ISO 8601 format"
  ∨ e = HTTPException 400 "Invalid expiration date format"
  ∨ e = HTTPException 400 "Invalid start date format"
  ∨ e = HTTPException 400 "Invalid date format in start_date or expiration_date".

(** ** Library functions taken as an interface *)

Class Runtime := {
  (** [datetime.fromisoformat]; [None] stands for [ValueError]. *)
  fromisoformat : string → option datetime;
  (** [datetime.isoformat]. *)
  isoformat : datetime → string;
  (** [ObjectId(s)] for a string [s]; [None] stands for [InvalidId]. *)
  ObjectId : string → option oid;
  (** [str(o)] for an [ObjectId] [o]. *)
  str_ObjectId : oid → string
}.

(** ** Dates and times *)

(** [s.replace('Z', '+00:00')]: every occurrence is replaced. *)
Fixpoint replace_Z (s : string) : string :=
  match s with
  | EmptyString => EmptyString
  | String c s' =>
      if Ascii.eqb c "Z"%char then String.append "+00:00" (replace_Z s')
      else String c (replace_Z s')
  end.

Definition is_leap (y : Z) : bool :=
  (y mod 4 =? 0) && (negb (y mod 100 =? 0) || (y mod 400 =? 0)).

Definition days_before_year (y : Z) : Z :=
  let y := y - 1 in y * 365 + y / 4 - y / 100 + y / 400.

Definition days_in_month (y m : Z) : Z :=
  if m =? 2 then (if is_leap y then 29 else 28)
  else if (m =? 4) || (m =? 6) || (m =? 9) || (m =? 11) then 30 else 31.

Definition days_before_month (y m : Z) : Z :=
  nth (Z.to_nat m) [0; 0; 31; 59; 90; 120; 151; 181; 212; 243; 273; 304; 334] 0
  + (if (2 <? m) && is_leap y then 1 else 0).

(** [datetime.toordinal]: day 1 is 0001-01-01. *)
Definition ymd2ord (y m d : Z) : Z :=
  days_before_year y + days_before_month y m + d.

(** Microseconds on the wall clock of the value since the start of day 0. *)
Definition wall_micros (d : datetime) : Z :=
  (((ymd2ord (year d) (month d) (day d) * 24 + hour d) * 60 + minute d) * 60
   + second d) * 1000000 + microsecond d.

(** Order of two datetimes: both naive, by their fields; both aware, by
    their instants; one of each is a [TypeError] ([None]). *)
Definition datetime_cmp (a b : datetime) : option comparison :=
  match utcoffset a, utcoffset b with
  | None, None => Some (wall_micros a ?= wall_micros b)
  | Some oa, Some ob =>
      Some (wall_micros a - oa * 1000000 ?= wall_micros b - ob * 1000000)
  | _, _ => None
  end.

(** [a >= b]. *)
Definition datetime_ge (a b : datetime) : option bool :=
  match datetime_cmp a b with
  | Some Lt => Some false
  | Some _ => Some true
  | None => None
  end.

(** [a < b], where it is defined. *)
Definition datetime_lt (a b : datetime) : Prop := datetime_cmp a b = Some Lt.

(** The driver's encoding of a [datetime] as a BSON date: milliseconds since
    1970-01-01T00:00:00 UTC, a naive value being taken as UTC. *)
Definition datetime_to_millis (d : datetime) : Z :=
  let utc := wall_micros d - default 0 (utcoffset d) * 1000000 in
  let epoch := ymd2ord 1970 1 1 * 86400000000 in
  (utc - microsecond d - epoch) / 1000 + microsecond d / 1000.

(** ** The document store *)

(** Operations sent to the announcements collection, in the order sent. *)
Inductive op :=
  | OpFind
  | OpFindOne (id : oid)
  | OpInsertOne (id : oid)
  | OpUpdateOne (id : oid)
  | OpDeleteOne (id : oid).

Record Store := mk_Store {
  teachers_collection : list doc;
  announcements_collection : list doc;
  oplog : list op
}.

Definition has_id (id : value) (d : doc) : bool :=
  bool_decide (d !! "_id" = Some id).

(** The first document whose [_id] is [id]. *)
Definition find_one_by_id (id : value) (c : list doc) : option doc :=
  find (has_id id) c.

(** [update_one({"_id": id}, ...)]: the first match is rewritten by [f]. *)
Fixpoint update_first (id : value) (f : doc → doc) (c : list doc) : list doc :=
  match c with
  | [] => []
  | d :: c' => if has_id id d then f d :: c' else d :: update_first id f c'
  end.

(** [delete_one({"_id": id})]: the first match is removed. *)
Fixpoint delete_first (id : value) (c : list doc) : list doc :=
  match c with
  | [] => []
  | d :: c' => if has_id id d then c' else d :: delete_first id c'
  end.

(** *** Query filters *)

Inductive cond :=
  | Exists (b : bool)
  | Lte (v : value)
  | Gte (v : value).

Inductive query :=
  | QAll
  | QField (k : string) (c : cond)
  | QAnd (q1 q2 : query)
  | QOr (q1 q2 : query).

(** Order of two BSON values of the same type; [None] across types. *)
Definition bson_cmp (a b : value) : option comparison :=
  match a, b with
  | VStr x, VStr y => Some (String.compare x y)
  | VOid x, VOid y => Some (N.compare x y)
  | VDate x, VDate y => Some (Z.compare x y)
  | _, _ => None
  end.

(** A comparison operator matches a field only when the field holds a value
    of the type of the operand. *)
Definition cond_matches (c : cond) (field : option value) : bool :=
  match c, field with
  | Exists b, _ => bool_decide (is_Some field ↔ b = true)
  | Lte q, Some v =>
      match bson_cmp v q with Some Lt | Some Eq => true | _ => false end
  | Gte q, Some v =>
      match bson_cmp v q with Some Gt | Some Eq => true | _ => false end
  | _, None => false
  end.

Fixpoint matches (q : query) (d : doc) : bool :=
  match q with
  | QAll => true
  | QField k c => cond_matches c (d !! k)
  | QAnd q1 q2 => matches q1 d && matches q2 d
  | QOr q1 q2 => matches q1 d || matches q2 d
  end.

(** *** Sort order *)

(** Rank of the type of a sort key: a missing field sorts as null, below
    strings, which sort below object ids, which sort below dates. *)
Definition type_rank (k : option value) : Z :=
  match k with
  | None => 0
  | Some (VStr _) => 1
  | Some (VOid _) => 2
  | Some (VDate _) => 3
  end.

Definition key_cmp (a b : option value) : comparison :=
  match a, b with
  | Some x, Some y =>
      match bson_cmp x y with
      | Some c => c
      | None => type_rank a ?= type_rank b
      end
  | _, _ => type_rank a ?= type_rank b
  end.

(** [a] does not sort after [b] in a descending sort on field [k]. *)
Definition desc_by (k : string) (a b : doc) : Prop :=
  key_cmp (a !! k) (b !! k) ≠ Lt.

Global Instance desc_by_dec k a b : Decision (desc_by k a b).
Proof. unfold desc_by. apply _. Defined.

(** ** The monad of the handlers: state of the store, and exceptions *)

Inductive outcome (A : Type) :=
  | Return (a : A)
  | Raise (e : exn).
Arguments Return {A} a.
Arguments Raise {A} e.

Definition M (A : Type) : Type := Store → outcome A * Store.

Global Instance M_ret : MRet M := λ A a s, (Return a, s).

Global Instance M_bind : MBind M := λ A B k m s,
  match m s with
  | (Return a, s') => k a s'
  | (Raise e, s') => (Raise e, s')
  end.

Definition raise {A} (e : exn) : M A := λ s, (Raise e, s).

(** [try: body except ValueError: handler]; other exceptions pass. *)
Definition try_except_ValueError {A} (body handler : M A) : M A := λ s,
  match body s with
  | (Raise ValueError, s') => handler s'
  | r => r
  end.

(** *** Storage operations *)

Definition log (o : op) : M () := λ s,
  (Return (), mk_Store (teachers_collection s) (announcements_collection s)
                       (oplog s ++ [o])%list).

Definition modify_announcements (f : list doc → list doc) : M () := λ s,
  (Return (), mk_Store (teachers_collection s) (f (announcements_collection s))
                       (oplog s)).

Definition gets {A} (f : Store → A) : M A := λ s, (Return (f s), s).

(** [teachers_collection.find_one({"_id": username})] *)
Definition teachers_find_one (username : string) : M (option doc) :=
  gets (λ s, find_one_by_id (VStr username) (teachers_collection s)).

(** [announcements_collection.find_one({"_id": id})] *)
Definition announcements_find_one (id : oid) : M (option doc) :=
  log (OpFindOne id);;
  gets (λ s, find_one_by_id (VOid id) (announcements_collection s)).

(** [announcements_collection.find(q).sort(k, -1)], read to the end. *)
Definition announcements_find_sorted_desc (q : query) (k : string)
  : M (list doc) :=
  log OpFind;;
  gets (λ s, merge_sort (desc_by k)
               (filter (λ d, matches q d = true) (announcements_collection s))).

(** [announcements_collection.insert_one(d)] for a document without [_id]:
    the driver adds the identifier [new_id] it generated to [d], and the
    server refuses an identifier already stored. *)
Definition announcements_insert_one (new_id : oid) (d : doc) : M doc :=
  log (OpInsertOne new_id);;
  existing ← gets (λ s, find_one_by_id (VOid new_id)
                          (announcements_collection s));
  match existing with
  | Some _ => raise DuplicateKeyError
  | None =>
      let d' := <["_id" := VOid new_id]> d in
      modify_announcements (λ c, (c ++ [d'])%list);;
      mret d'
  end.

(** [announcements_collection.update_one({"_id": id}, {"$set": fields})] *)
Definition announcements_update_one_set (id : oid) (fields : doc) : M () :=
  log (OpUpdateOne id);;
  modify_announcements (update_first (VOid id) (λ d, fields ∪ d)).

(** [announcements_collection.update_one({"_id": id}, {"$unset": {k: ""}})] *)
Definition announcements_update_one_unset (id : oid) (k : string) : M () :=
  log (OpUpdateOne id);;
  modify_announcements (update_first (VOid id) (delete k)).

(** [announcements_collection.delete_one({"_id": id}).deleted_count] *)
Definition announcements_delete_one (id : oid) : M Z :=
  log (OpDeleteOne id);;
  existing ← gets (λ s, find_one_by_id (VOid id)
                          (announcements_collection s));
  modify_announcements (delete_first (VOid id));;
  mret (if existing is Some _ then 1 else 0).

(** *** Truth values of Python objects *)

(** [bool(x)] for [x : Optional[str]]. *)
Definition str_truthy (x : option string) : bool :=
  match x with
  | Some (String _ _) => true
  | _ => false
  end.

(** [bool(x)] for the result of [find_one]: [None] and the empty [dict]
    are false. *)
Definition doc_truthy (x : option doc) : bool :=
  match x with
  | Some d => bool_decide (d ≠ ∅)
  | None => false
  end.

(** [bool(x)] for the result of [dict.get] on a document. *)
Definition value_truthy (x : option value) : bool :=
  match x with
  | Some (VStr s) => str_truthy (Some s)
  | Some (VOid _) | Some (VDate _) => true
  | None => false
  end.

(** [x.replace('Z', '+00:00')] for [x] read from a document: a string is
    rewritten, [None] and an [ObjectId] have no such attribute, and the
    [replace] of a [datetime] rejects string arguments. *)
Definition value_replace_Z (x : option value) : M string :=
  match x with
  | Some (VStr s) => mret (replace_Z s)
  | Some (VOid _) | None => raise AttributeError
  | Some (VDate _) => raise TypeError
  end.

(** *** Stores the operations lead to *)

(** The store after [o] has been sent to the announcements collection. *)
Definition logged (o : op) (s : Store) : Store :=
  mk_Store (teachers_collection s) (announcements_collection s)
           (oplog s ++ [o])%list.

(** The store with the announcements collection rewritten by [f]. *)
Definition with_announcements (f : list doc → list doc) (s : Store) : Store :=
  mk_Store (teachers_collection s) (f (announcements_collection s)) (oplog s).

(** The store after the [start_date] step: the field is unset at once when
    the empty string was supplied. *)
Definition start_date_store (id : oid) (start_date : option string)
    (s : Store) : Store :=
  if bool_decide (start_date = Some "")
  then with_announcements (update_first (VOid id) (delete "start_date"))
         (logged (OpUpdateOne id) s)
  else s.

(** The store after the [$set], which is sent for a non-empty update only. *)
Definition set_store (id : oid) (update_fields : doc) (s : Store) : Store :=
  if bool_decide (update_fields ≠ ∅)
  then with_announcements (update_first (VOid id) (λ d, update_fields ∪ d))
         (logged (OpUpdateOne id) s)
  else s.

(** No two stored documents carry the same [_id] (the store's primary key). *)
Definition unique_ids (c : list doc) : Prop :=
  NoDup ((λ d : doc, d !! "_id") <$> c).

(** The fields of a document as create writes them: an [ObjectId] under
    [_id], strings under [message], [expiration_date], [created_by] and
    [created_at], and a string under [start_date] if it is present. *)
Definition well_shaped (d : doc) : Prop :=
  (∃ o, d !! "_id" = Some (VOid o))
  ∧ (∃ m, d !! "message" = Some (VStr m))
  ∧ (∃ e, d !! "expiration_date" = Some (VStr e))
  ∧ (∃ u, d !! "created_by" = Some (VStr u))
  ∧ (∃ t, d !! "created_at" = Some (VStr t))
  ∧ (d !! "start_date" = None ∨ ∃ x, d !! "start_date" = Some (VStr x)).

(** The fields an update may write. *)
Definition updatable : list string :=
  ["message"; "expiration_date"; "start_date"].

(** The value a call returned, if it returned. *)
Definition returned {A} (o : outcome A) : option A :=
  match o with
  | Return a => Some a
  | Raise _ => None
  end.

(** ** The handlers *)

Section Handlers.
Context `{Runtime}.

(** [datetime.fromisoformat(s)] as a Python call. *)
Definition datetime_fromisoformat (s : string) : M datetime :=
  match fromisoformat s with
  | Some d => mret d
  | None => raise ValueError
  end.

(** The parse the module applies to every date string. *)
Definition parse_date (s : string) : option datetime :=
  fromisoformat (replace_Z s).

(** [a >= b] as a Python expression. *)
Definition ge (a b : datetime) : M bool :=
  match datetime_ge a b with
  | Some r => mret r
  | None => raise TypeError
  end.

(** [d.get(k, dflt)] *)
Definition dict_get_or (d : doc) (k : string) (dflt : option value)
  : option value :=
  match d !! k with
  | Some v => Some v
  | None => dflt
  end.

Definition serialize_announcement (announcement : doc) : doc :=
  match announcement !! "_id" with
  | Some (VOid o) =>
      delete "_id" (<["id" := VStr (str_ObjectId o)]> announcement)
  | _ => announcement
  end.

(** The teacher check that opens the three writing handlers. *)
Definition validate_teacher (teacher_username : string) : M () :=
  teacher ← teachers_find_one teacher_username;
  if negb (doc_truthy teacher)
  then raise (HTTPException 401 "Invalid teacher credentials")
  else mret ().

(** [now] is the reading of [datetime.utcnow()]. *)
Definition get_announcements (now : datetime) (active_only : bool)
  : M (list doc) :=
  let query :=
    if active_only then
      QAnd (QOr (QField "start_date" (Exists false))
                (QField "start_date" (Lte (VDate (datetime_to_millis now)))))
           (QField "expiration_date" (Gte (VDate (datetime_to_millis now))))
    else QAll in
  found ← announcements_find_sorted_desc query "created_at";
  mret (serialize_announcement <$> found).

Definition get_announcement (announcement_id : string) : M doc :=
  match ObjectId announcement_id with
  | None => raise (HTTPException 400 "Invalid announcement ID format")
  | Some id =>
      announcement ← announcements_find_one id;
      if negb (doc_truthy announcement)
      then raise (HTTPException 404 "Announcement not found")
      else mret (serialize_announcement (default ∅ announcement))
  end.

(** The [try] block of [create_announcement]. *)
Definition create_validate_dates (expiration_date : string)
    (start_date : option string) : M () :=
  try_except_ValueError
    (exp_date ← datetime_fromisoformat (replace_Z expiration_date);
     if str_truthy start_date then
       st_date ← datetime_fromisoformat (replace_Z (default "" start_date));
       st_ge ← ge st_date exp_date;
       if (st_ge : bool)
       then raise (HTTPException 400 "Start date must be before expiration date")
       else mret ()
     else mret ())
    (raise (HTTPException 400 "Invalid date format. Use ISO 8601 format")).

(** The document [create_announcement] builds before the insertion. *)
Definition new_announcement (now : datetime)
    (message expiration_date : string) (start_date : option string)
    (teacher_username : string) : doc :=
  let announcement : doc :=
    list_to_map [("message", VStr message);
                 ("expiration_date", VStr expiration_date);
                 ("created_by", VStr teacher_username);
                 ("created_at", VStr (isoformat now))] in
  if str_truthy start_date
  then <["start_date" := VStr (default "" start_date)]> announcement
  else announcement.

(** [now] is the reading of [datetime.utcnow()], [new_id] the identifier
    the driver generates for the inserted document. *)
Definition create_announcement (now : datetime) (new_id : oid)
    (message expiration_date : string) (start_date : option string)
    (teacher_username : string) : M doc :=
  validate_teacher teacher_username;;
  create_validate_dates expiration_date start_date;;
  let announcement :=
    new_announcement now message expiration_date start_date teacher_username in
  inserted ← announcements_insert_one new_id announcement;
  mret (<["id" := VStr (str_ObjectId new_id)]> inserted).

(** The [expiration_date] step of [update_announcement]. *)
Definition update_expiration_date (expiration_date : option string)
    (update_fields : doc) : M doc :=
  match expiration_date with
  | Some e =>
      try_except_ValueError
        (datetime_fromisoformat (replace_Z e);;
         mret (<["expiration_date" := VStr e]> update_fields))
        (raise (HTTPException 400 "Invalid expiration date format"))
  | None => mret update_fields
  end.

(** The [start_date] step of [update_announcement]. *)
Definition update_start_date (id : oid) (start_date : option string)
    (update_fields : doc) : M doc :=
  match start_date with
  | Some s =>
      if String.eqb s "" then
        announcements_update_one_unset id "start_date";;
        mret update_fields
      else
        try_except_ValueError
          (datetime_fromisoformat (replace_Z s);;
           mret (<["start_date" := VStr s]> update_fields))
          (raise (HTTPException 400 "Invalid start date format"))
  | None => mret update_fields
  end.

(** The ordering check of [update_announcement] on the final values. *)
Definition update_validate_order (final_start final_exp : option value)
  : M () :=
  if value_truthy final_start && value_truthy final_exp then
    try_except_ValueError
      (s ← value_replace_Z final_start;
       st_date ← datetime_fromisoformat s;
       e ← value_replace_Z final_exp;
       exp_date ← datetime_fromisoformat e;
       st_ge ← ge st_date exp_date;
       if (st_ge : bool)
       then raise (HTTPException 400 "Start date must be before expiration date")
       else mret ())
      (raise (HTTPException 400
                "Invalid date format in start_date or expiration_date"))
  else mret ().

(** The body of [update_announcement] once the document [existing] has
    been found under [id]: build the update, validate, write, read back. *)
Definition update_existing (id : oid) (existing : doc)
    (message expiration_date start_date : option string) : M doc :=
  let update_fields : doc := ∅ in
  let update_fields :=
    match message with
    | Some m => <["message" := VStr m]> update_fields
    | None => update_fields
    end in
  update_fields ← update_expiration_date expiration_date update_fields;
  update_fields ← update_start_date id start_date update_fields;
  let final_start :=
    dict_get_or update_fields "start_date" (existing !! "start_date") in
  let final_exp :=
    dict_get_or update_fields "expiration_date"
                (existing !! "expiration_date") in
  update_validate_order final_start final_exp;;
  (if bool_decide (update_fields ≠ ∅)
   then announcements_update_one_set id update_fields
   else mret ());;
  updated ← announcements_find_one id;
  match updated with
  | Some u => mret (serialize_announcement u)
  | None => raise TypeError
  end.

Definition update_announcement (announcement_id : string)
    (message expiration_date start_date : option string)
    (teacher_username : string) : M doc :=
  validate_teacher teacher_username;;
  match ObjectId announcement_id with
  | None => raise (HTTPException 400 "Invalid announcement ID format")
  | Some id =>
      existing ← announcements_find_one id;
      if negb (doc_truthy existing)
      then raise (HTTPException 404 "Announcement not found")
      else update_existing id (default ∅ existing)
             message expiration_date start_date
  end.

Definition delete_announcement (announcement_id teacher_username : string)
  : M doc :=
  validate_teacher teacher_username;;
  match ObjectId announcement_id with
  | None => raise (HTTPException 400 "Invalid announcement ID format")
  | Some id =>
      deleted_count ← announcements_delete_one id;
      if deleted_count =? 0
      then raise (HTTPException 404 "Announcement not found")
      else mret {["message" := VStr "Announcement deleted successfully"]}
  end.

End Handlers.

(** ** What the steps of the handlers decide

    The validation steps of the handlers do not touch the store; these
    are the outcomes they compute, and the stores reachable through the
    handlers. *)

Section Outcomes.
Context `{Runtime}.

(** What the [try] block of [create_announcement] decides. *)
Definition create_dates_outcome (expiration_date : string)
    (start_date : option string) : outcome () :=
  match parse_date expiration_date with
  | None => Raise (HTTPException 400 "Invalid date format. Use ISO 8601 format")
  | Some exp_date =>
      if str_truthy start_date then
        match parse_date (default "" start_date) with
        | None =>
            Raise (HTTPException 400 "Invalid date format. Use ISO 8601 format")
        | Some st_date =>
            match datetime_ge st_date exp_date with
            | None => Raise TypeError
            | Some true => Raise InvalidDateOrder
            | Some false => Return ()
            end
        end
      else Return ()
  end.

(** The update document once [message] has been looked at. *)
Definition message_fields (message : option string) : doc :=
  match message with
  | Some m => <["message" := VStr m]> ∅
  | None => ∅
  end.

(** What the [expiration_date] step decides. *)
Definition expiration_date_outcome (expiration_date : option string)
    (update_fields : doc) : outcome doc :=
  match expiration_date with
  | Some e =>
      match parse_date e with
      | Some _ => Return (<["expiration_date" := VStr e]> update_fields)
      | None => Raise (HTTPException 400 "Invalid expiration date format")
      end
  | None => Return update_fields
  end.

(** What the [start_date] step decides, the removal apart. *)
Definition start_date_outcome (start_date : option string)
    (update_fields : doc) : outcome doc :=
  match start_date with
  | Some x =>
      if String.eqb x "" then Return update_fields
      else match parse_date x with
           | Some _ => Return (<["start_date" := VStr x]> update_fields)
           | None => Raise (HTTPException 400 "Invalid start date format")
           end
  | None => Return update_fields
  end.

(** What the ordering check decides on the final values. *)
Definition order_outcome (final_start final_exp : option value) : outcome () :=
  if value_truthy final_start && value_truthy final_exp then
    match final_start with
    | Some (VStr x) =>
        match parse_date x with
        | None =>
            Raise (HTTPException 400
                     "Invalid date format in start_date or expiration_date")
        | Some st_date =>
            match final_exp with
            | Some (VStr y) =>
                match parse_date y with
                | None =>
                    Raise (HTTPException 400
                      "Invalid date format in start_date or expiration_date")
                | Some exp_date =>
                    match datetime_ge st_date exp_date with
                    | None => Raise TypeError
                    | Some true => Raise InvalidDateOrder
                    | Some false => Return ()
                    end
                end
            | Some (VOid _) | None => Raise AttributeError
            | Some (VDate _) => Raise TypeError
            end
        end
    | Some (VOid _) | None => Raise AttributeError
    | Some (VDate _) => Raise TypeError
    end
  else Return ().

(** The filter [get_announcements] sends when [active_only] is true. *)
Definition active_query (now : datetime) : query :=
  QAnd (QOr (QField "start_date" (Exists false))
            (QField "start_date" (Lte (VDate (datetime_to_millis now)))))
       (QField "expiration_date" (Gte (VDate (datetime_to_millis now)))).

(** The dates of a stored document: [expiration_date] is a string that
    parses, and [start_date], when present, is a string that parses to a
    strictly earlier value. *)
Definition dates_valid (d : doc) : Prop :=
  ∃ e de,
    d !! "expiration_date" = Some (VStr e) ∧ parse_date e = Some de
    ∧ match d !! "start_date" with
      | None => True
      | Some v =>
          ∃ x dx, v = VStr x ∧ parse_date x = Some dx ∧ datetime_lt dx de
      end.

(** The stores the handlers can produce from an empty collection of
    announcements, whatever the calls return or raise; the teachers are
    maintained elsewhere and may change at any time. *)
Inductive reachable : Store → Prop :=
  | reachable_init teachers :
      reachable (mk_Store teachers [] [])
  | reachable_teachers s teachers :
      reachable s →
      reachable (mk_Store teachers (announcements_collection s) (oplog s))
  | reachable_list s now active_only :
      reachable s → reachable (get_announcements now active_only s).2
  | reachable_get s announcement_id :
      reachable s → reachable (get_announcement announcement_id s).2
  | reachable_create s now new_id message expiration_date start_date
      teacher_username :
      reachable s →
      reachable (create_announcement now new_id message expiration_date
                   start_date teacher_username s).2
  | reachable_update s announcement_id message expiration_date start_date
      teacher_username :
      reachable s →
      reachable (update_announcement announcement_id message expiration_date
                   start_date teacher_username s).2
  | reachable_delete s announcement_id teacher_username :
      reachable s →
      reachable (delete_announcement announcement_id teacher_username s).2.

End Outcomes.

(** ** A reference runtime

    The grammar [datetime.isoformat] writes and [datetime.fromisoformat]
    reads back, [YYYY-MM-DD[*HH[:MM[:SS[.fff[fff]]]][(+|-)HH:MM]]], and the
    24-digit hexadecimal form of an [ObjectId]. *)

Module Reference.

Definition digit (c : ascii) : option Z :=
  let n := Z.of_N (N_of_ascii c) in
  if (48 <=? n) && (n <=? 57) then Some (n - 48) else None.

Fixpoint number_aux (acc : Z) (l : list ascii) : option Z :=
  match l with
  | [] => Some acc
  | c :: l' => d ← digit c; number_aux (acc * 10 + d) l'
  end.

(** A non-empty run of decimal digits. *)
Definition number (l : list ascii) : option Z :=
  match l with
  | [] => None
  | _ => number_aux 0 l
  end.

Definition parse_date_part (l : list ascii) : option (Z * Z * Z) :=
  match l with
  | [y1; y2; y3; y4; "-"%char; m1; m2; "-"%char; d1; d2] =>
      y ← number [y1; y2; y3; y4];
      m ← number [m1; m2];
      d ← number [d1; d2];
      if (1 <=? y) && (1 <=? m) && (m <=? 12) && (1 <=? d)
         && (d <=? days_in_month y m)
      then Some (y, m, d) else None
  | _ => None
  end.

Definition parse_hms (l : list ascii) : option (Z * Z * Z * Z) :=
  '(h, m, s, us) ←
    match l with
    | [h1; h2] => h ← number [h1; h2]; Some (h, 0, 0, 0)
    | [h1; h2; ":"%char; m1; m2] =>
        h ← number [h1; h2]; m ← number [m1; m2]; Some (h, m, 0, 0)
    | [h1; h2; ":"%char; m1; m2; ":"%char; s1; s2] =>
        h ← number [h1; h2]; m ← number [m1; m2]; s ← number [s1; s2];
        Some (h, m, s, 0)
    | [h1; h2; ":"%char; m1; m2; ":"%char; s1; s2; "."%char; f1; f2; f3] =>
        h ← number [h1; h2]; m ← number [m1; m2]; s ← number [s1; s2];
        f ← number [f1; f2; f3];
        Some (h, m, s, f * 1000)
    | [h1; h2; ":"%char; m1; m2; ":"%char; s1; s2; "."%char;
       f1; f2; f3; f4; f5; f6] =>
        h ← number [h1; h2]; m ← number [m1; m2]; s ← number [s1; s2];
        f ← number [f1; f2; f3; f4; f5; f6];
        Some (h, m, s, f)
    | _ => None
    end;
  if (h <? 24) && (m <? 60) && (s <? 60) then Some (h, m, s, us) else None.

(** The text before the first sign, the sign, and the text after it. *)
Fixpoint split_offset (l : list ascii)
  : list ascii * option (Z * list ascii) :=
  match l with
  | [] => ([], None)
  | c :: l' =>
      if Ascii.eqb c "+"%char then ([], Some (1, l'))
      else if Ascii.eqb c "-"%char then ([], Some (-1, l'))
      else let '(t, o) := split_offset l' in (c :: t, o)
  end.

Definition parse_offset (o : option (Z * list ascii)) : option (option Z) :=
  match o with
  | None => Some None
  | Some (sign, [h1; h2; ":"%char; m1; m2]) =>
      h ← number [h1; h2]; m ← number [m1; m2];
      if (h <? 24) && (m <? 60) then Some (Some (sign * (h * 3600 + m * 60)))
      else None
  | Some _ => None
  end.

Definition fromisoformat (s : string) : option datetime :=
  let l := list_ascii_of_string s in
  '(y, mo, d) ← parse_date_part (take 10 l);
  match drop 10 l with
  | [] => Some (mk_datetime y mo d 0 0 0 0 None)
  | _ :: t =>
      let '(hms, off) := split_offset t in
      '(h, mi, sec, us) ← parse_hms hms;
      tz ← parse_offset off;
      Some (mk_datetime y mo d h mi sec us tz)
  end.

Definition digit_char (d : Z) : ascii := ascii_of_N (Z.to_N (48 + d mod 10)).

(** [n] written in [width] decimal digits, zero padded. *)
Fixpoint decimal (width : nat) (n : Z) : list ascii :=
  match width with
  | O => []
  | S w => (decimal w (n / 10) ++ [digit_char n])%list
  end.

Definition isoformat (d : datetime) : string :=
  string_of_list_ascii
    (decimal 4 (year d) ++ ["-"%char] ++ decimal 2 (month d) ++ ["-"%char]
     ++ decimal 2 (day d) ++ ["T"%char] ++ decimal 2 (hour d) ++ [":"%char]
     ++ decimal 2 (minute d) ++ [":"%char] ++ decimal 2 (second d)
     ++ (if microsecond d =? 0 then []
         else "."%char :: decimal 6 (microsecond d))
     ++ match utcoffset d with
        | None => []
        | Some o =>
            (if o <? 0 then "-"%char else "+"%char)
            :: decimal 2 (Z.abs o / 3600) ++ [":"%char]
            ++ decimal 2 (Z.abs o / 60 mod 60)
        end)%list.

Definition hex_digit (c : ascii) : option N :=
  let n := N_of_ascii c in
  (if (48 <=? n) && (n <=? 57) then Some (n - 48)
   else if (97 <=? n) && (n <=? 102) then Some (n - 87)
   else if (65 <=? n) && (n <=? 70) then Some (n - 55)
   else None)%N.

Fixpoint hex_number (acc : N) (l : list ascii) : option N :=
  match l with
  | [] => Some acc
  | c :: l' => d ← hex_digit c; hex_number (acc * 16 + d)%N l'
  end.

(** [ObjectId(s)]: a string of 24 hexadecimal digits. *)
Definition ObjectId (s : string) : option oid :=
  let l := list_ascii_of_string s in
  if (length l =? 24)%nat then hex_number 0 l else None.

Definition hex_char (d : N) : ascii :=
  ascii_of_N (if d <? 10 then 48 + d else 87 + d)%N.

Fixpoint hex (width : nat) (n : N) : list ascii :=
  match width with
  | O => []
  | S w => (hex w (n / 16)%N ++ [hex_char (n mod 16)%N])%list
  end.

(** [str(o)]: 24 lower-case hexadecimal digits. *)
Definition str_ObjectId (o : oid) : string := string_of_list_ascii (hex 24 o).

Definition runtime : Runtime :=
  Build_Runtime fromisoformat isoformat ObjectId str_ObjectId.

End Reference.

(** ** A school, for running the handlers *)

Definition teacher_t1 : doc := {["_id" := VStr "t1"]}.

(** One teacher and no announcement. *)
Definition empty_school : Store := mk_Store [teacher_t1] [] [].

(** The clock reading 2026-11-04T10:00:00. *)
Definition morning : datetime := mk_datetime 2026 11 4 10 0 0 0 None.

Definition exam_id : string := "000000000000000000000007".

(** The announcement of the exam, open from 2025 to 2030, as stored. *)
Definition exam : doc :=
  <["_id" := VOid 7%N]>
    (@new_announcement Reference.runtime morning "Exam Friday"
       "2030-01-01T00:00:00Z" (Some "2025-01-01T00:00:00Z") "t1").

(** The school after teacher t1 has announced the exam. *)
Definition school : Store :=
  (@create_announcement Reference.runtime morning 7%N "Exam Friday"
     "2030-01-01T00:00:00Z" (Some "2025-01-01T00:00:00Z") "t1" empty_school).2.

(** A collection whose dates are BSON dates, as a direct import would
    store them: one announcement open around [morning], one expired, one
    not yet started, one without start. *)
Definition archive : Store :=
  mk_Store [teacher_t1]
    [ {["_id" := VOid 1%N; "created_at" := VStr "2026-01-01T00:00:00";
        "start_date" := VDate 1735689600000;
        "expiration_date" := VDate 1893456000000]};
      {["_id" := VOid 2%N; "created_at" := VStr "2026-02-01T00:00:00";
        "start_date" := VDate 1735689600000;
        "expiration_date" := VDate 1767225600000]};
      {["_id" := VOid 3%N; "created_at" := VStr "2026-03-01T00:00:00";
        "start_date" := VDate 1830000000000;
        "expiration_date" := VDate 1893456000000]};
      {["_id" := VOid 4%N; "created_at" := VStr "2026-04-01T00:00:00";
        "expiration_date" := VDate 1893456000000]} ]
    [].

(** A document whose start_date is not a date, as another writer could
    have left it, and a collection holding it. *)
Definition fair : doc :=
  {["_id" := VOid 9%N; "message" := VStr "Fair"; "start_date" := VStr "soon";
    "expiration_date" := VStr "2030-01-01T00:00:00Z"]}.

Definition legacy : Store := mk_Store [teacher_t1] [fair] [].

(** The update of the message of the exam, and what it returns. *)
Definition exam_monday_call : outcome doc * Store :=
  @update_announcement Reference.runtime exam_id (Some "Exam Monday") None None
    "t1" school.

Definition exam_monday : doc :=
  <["id" := VStr exam_id]>
    (delete "_id" (<["message" := VStr "Exam Monday"]> exam)).

(** ** Proof automation *)

(** Unfold the operations of the monad. *)
Ltac munfold :=
  unfold mbind, M_bind, mret, M_ret, raise, gets, log, modify_announcements,
    try_except_ValueError in *.

(** Decide a closed equation by evaluation. *)
Ltac vm_refl :=
  lazymatch goal with
  | |- ?a = ?b => vm_cast_no_check (@eq_refl _ b)
  end.

Example reference_fromisoformat_date :
  Reference.fromisoformat "2030-01-01"
  = Some (mk_datetime 2030 1 1 0 0 0 0 None).
Proof. reflexivity. Qed.

Example reference_fromisoformat_utc :
  Reference.fromisoformat (replace_Z "2030-01-01T00:00:00Z")
  = Some (mk_datetime 2030 1 1 0 0 0 0 (Some 0)).
Proof. reflexivity. Qed.

Example reference_fromisoformat_empty : Reference.fromisoformat "" = None.
Proof. reflexivity. Qed.

Example reference_fromisoformat_bad : Reference.fromisoformat "bad" = None.
Proof. reflexivity. Qed.

Example reference_isoformat :
  Reference.isoformat (mk_datetime 2026 11 4 9 5 0 120 None)
  = "2026-11-04T09:05:00.000120".
Proof. reflexivity. Qed.

Example reference_ObjectId :
  Reference.ObjectId "65A1b2c3d4e5f60718293a4b" = Some 31453467242603790624579205707%N
  ∧ Reference.str_ObjectId 31453467242603790624579205707%N
    = "65a1b2c3d4e5f60718293a4b"
  ∧ Reference.ObjectId "not-a-valid-id" = None.
Proof. vm_compute. auto. Qed.

Example datetime_to_millis_epoch :
  datetime_to_millis (mk_datetime 1970 1 2 0 0 1 2500 None) = 86401002.
Proof. reflexivity. Qed.

(** ** Running the monad *)

Lemma bind_run {A B} (m : M A) (k : A → M B) (s : Store) :
  (m ≫= k) s
  = match m s with
    | (Return a, s') => k a s'
    | (Raise e, s') => (Raise e, s')
    end.
Proof. reflexivity. Qed.

Lemma announcements_find_one_run id s :
  announcements_find_one id s
  = (Return (find_one_by_id (VOid id) (announcements_collection s)),
     logged (OpFindOne id) s).
Proof. reflexivity. Qed.

Lemma announcements_update_one_unset_run id k s :
  announcements_update_one_unset id k s
  = (Return (),
     with_announcements (update_first (VOid id) (delete k))
       (logged (OpUpdateOne id) s)).
Proof. reflexivity. Qed.

Lemma announcements_update_one_set_run id fields s :
  announcements_update_one_set id fields s
  = (Return (),
     with_announcements (update_first (VOid id) (λ d, fields ∪ d))
       (logged (OpUpdateOne id) s)).
Proof. reflexivity. Qed.

Lemma announcements_delete_one_run id s :
  announcements_delete_one id s
  = (Return (if find_one_by_id (VOid id) (announcements_collection s)
             is Some _ then 1 else 0),
     with_announcements (delete_first (VOid id)) (logged (OpDeleteOne id) s)).
Proof. reflexivity. Qed.

Lemma announcements_insert_one_run new_id d s :
  announcements_insert_one new_id d s
  = match find_one_by_id (VOid new_id) (announcements_collection s) with
    | Some _ => (Raise DuplicateKeyError, logged (OpInsertOne new_id) s)
    | None =>
        (Return (<["_id" := VOid new_id]> d),
         with_announcements (λ c, c ++ [<["_id" := VOid new_id]> d])%list
           (logged (OpInsertOne new_id) s))
    end.
Proof.
  unfold announcements_insert_one. munfold. simpl.
  destruct (find_one_by_id _ _); reflexivity.
Qed.

(** ** Facts about the storage functions *)

Lemma has_id_true id d : has_id id d = true ↔ d !! "_id" = Some id.
Proof. unfold has_id. apply bool_decide_eq_true. Qed.

Lemma find_one_by_id_Some id c d :
  find_one_by_id id c = Some d → d ∈ c ∧ d !! "_id" = Some id.
Proof.
  unfold find_one_by_id. intros Hf. apply find_some in Hf as [Hin Hid].
  split; [by apply list_elem_of_In | by apply has_id_true].
Qed.

Lemma find_one_by_id_None id c :
  find_one_by_id id c = None ↔ ∀ d, d ∈ c → d !! "_id" ≠ Some id.
Proof.
  unfold find_one_by_id. induction c as [|x c IH]; simpl.
  - split; [intros _ d Hd; inversion Hd | done].
  - destruct (has_id id x) eqn:Hx.
    + split; [done|]. intros Hall. apply has_id_true in Hx.
      exfalso. apply (Hall x); [left | done].
    + rewrite IH. split.
      * intros Hall d Hd. apply elem_of_cons in Hd as [->|Hd]; [|by apply Hall].
        intros Hid. apply has_id_true in Hid. congruence.
      * intros Hall d Hd. apply Hall. by right.
Qed.

(** A document found by its [_id] is not the empty dictionary. *)
Lemma find_one_by_id_truthy id c :
  doc_truthy (find_one_by_id id c) = bool_decide (is_Some (find_one_by_id id c)).
Proof.
  destruct (find_one_by_id id c) as [d|] eqn:Hf; simpl.
  - apply find_one_by_id_Some in Hf as [_ Hid].
    assert (d ≠ ∅) as Hne by (intros ->; by rewrite lookup_empty in Hid).
    by rewrite bool_decide_eq_true_2.
  - done.
Qed.

(** ** The teacher check *)

Section Teacher.
Context `{Runtime}.

Lemma validate_teacher_run teacher_username s :
  validate_teacher teacher_username s
  = (if find_one_by_id (VStr teacher_username) (teachers_collection s)
     is Some _ then Return () else Raise Unauthorized, s).
Proof.
  unfold validate_teacher, teachers_find_one. munfold.
  rewrite find_one_by_id_truthy.
  by destruct (find_one_by_id _ _).
Qed.

Lemma validate_teacher_absent teacher_username s :
  find_one_by_id (VStr teacher_username) (teachers_collection s) = None →
  validate_teacher teacher_username s = (Raise Unauthorized, s).
Proof. intros Hn. by rewrite validate_teacher_run, Hn. Qed.

Lemma validate_teacher_present teacher_username s :
  is_Some (find_one_by_id (VStr teacher_username) (teachers_collection s)) →
  validate_teacher teacher_username s = (Return (), s).
Proof. intros [t Ht]. by rewrite validate_teacher_run, Ht. Qed.

(** C4. When no teacher record exists for [teacher_username], create,
    update and delete all raise Unauthorized whatever the other arguments
    are, and hand back the store they received: the announcements are
    unchanged and no operation was sent to their collection, so the check
    comes before the validation of identifiers and dates. *)
Theorem unauthorized_before_any_access (s : Store) (teacher_username : string) :
  find_one_by_id (VStr teacher_username) (teachers_collection s) = None →
  (∀ now new_id message expiration_date start_date,
     create_announcement now new_id message expiration_date start_date
       teacher_username s = (Raise Unauthorized, s))
  ∧ (∀ announcement_id message expiration_date start_date,
       update_announcement announcement_id message expiration_date start_date
         teacher_username s = (Raise Unauthorized, s))
  ∧ (∀ announcement_id,
       delete_announcement announcement_id teacher_username s
       = (Raise Unauthorized, s)).
Proof.
  intros Hn. repeat split; intros;
    unfold create_announcement, update_announcement, delete_announcement;
    rewrite bind_run, validate_teacher_absent by done; reflexivity.
Qed.

End Teacher.

(** ** Identifiers: get and delete *)

Lemma delete_first_absent id c :
  find_one_by_id id c = None → delete_first id c = c.
Proof.
  unfold find_one_by_id. induction c as [|d c IH]; simpl; [done|].
  destruct (has_id id d); [done|]. intros Hn. by rewrite IH.
Qed.

Lemma delete_first_gone id c :
  unique_ids c → find_one_by_id id (delete_first id c) = None.
Proof.
  unfold unique_ids. induction c as [|d c IH]; simpl; [done|].
  rewrite NoDup_cons. intros [Hd Hc].
  destruct (has_id id d) eqn:Hid.
  - apply find_one_by_id_None. intros d' Hd' Hid'.
    apply has_id_true in Hid. apply Hd.
    rewrite Hid, <- Hid'. apply list_elem_of_fmap. by exists d'.
  - unfold find_one_by_id in *. simpl. rewrite Hid. by apply IH.
Qed.

Section Identifiers.
Context `{Runtime}.

Lemma get_announcement_run announcement_id s :
  get_announcement announcement_id s
  = match ObjectId announcement_id with
    | None => (Raise InvalidIdentifier, s)
    | Some id =>
        (match find_one_by_id (VOid id) (announcements_collection s) with
         | Some a => Return (serialize_announcement a)
         | None => Raise NotFound
         end, logged (OpFindOne id) s)
    end.
Proof.
  unfold get_announcement. destruct (ObjectId announcement_id) as [id|]; [|done].
  rewrite bind_run, announcements_find_one_run, find_one_by_id_truthy.
  by destruct (find_one_by_id _ _).
Qed.

Lemma delete_announcement_run announcement_id teacher_username s :
  is_Some (find_one_by_id (VStr teacher_username) (teachers_collection s)) →
  delete_announcement announcement_id teacher_username s
  = match ObjectId announcement_id with
    | None => (Raise InvalidIdentifier, s)
    | Some id =>
        (match find_one_by_id (VOid id) (announcements_collection s) with
         | Some a =>
             Return {["message" := VStr "Announcement deleted successfully"]}
         | None => Raise NotFound
         end,
         with_announcements (delete_first (VOid id)) (logged (OpDeleteOne id) s))
    end.
Proof.
  intros Ht. unfold delete_announcement.
  rewrite bind_run, validate_teacher_present by done.
  destruct (ObjectId announcement_id) as [id|]; [|done].
  rewrite bind_run, announcements_delete_one_run.
  by destruct (find_one_by_id (VOid id) _).
Qed.


End Identifiers.

(** ** Creation *)

Lemma find_one_by_id_app id c1 c2 :
  find_one_by_id id (c1 ++ c2)
  = match find_one_by_id id c1 with
    | Some d => Some d
    | None => find_one_by_id id c2
    end.
Proof.
  unfold find_one_by_id. induction c1 as [|d c1 IH]; simpl; [done|].
  by destruct (has_id id d).
Qed.

Section Creation.
Context `{Runtime}.

Lemma create_validate_dates_run expiration_date start_date s :
  create_validate_dates expiration_date start_date s
  = (create_dates_outcome expiration_date start_date, s).
Proof.
  unfold create_validate_dates, create_dates_outcome, parse_date,
    datetime_fromisoformat, ge.
  munfold.
  destruct (fromisoformat (replace_Z expiration_date)); [|done].
  destruct (str_truthy start_date); [|done].
  destruct (fromisoformat (replace_Z (default "" start_date))) as [st|]; [|done].
  by destruct (datetime_ge st d) as [[]|].
Qed.

Lemma create_announcement_run now new_id message expiration_date start_date
    teacher_username s :
  is_Some (find_one_by_id (VStr teacher_username) (teachers_collection s)) →
  create_announcement now new_id message expiration_date start_date
    teacher_username s
  = match create_dates_outcome expiration_date start_date with
    | Raise e => (Raise e, s)
    | Return _ =>
        let announcement :=
          new_announcement now message expiration_date start_date
            teacher_username in
        match find_one_by_id (VOid new_id) (announcements_collection s) with
        | Some _ => (Raise DuplicateKeyError, logged (OpInsertOne new_id) s)
        | None =>
            (Return (<["id" := VStr (str_ObjectId new_id)]>
                       (<["_id" := VOid new_id]> announcement)),
             with_announcements
               (λ c, c ++ [<["_id" := VOid new_id]> announcement])%list
               (logged (OpInsertOne new_id) s))
        end
    end.
Proof.
  intros Ht. unfold create_announcement.
  rewrite bind_run, validate_teacher_present by done.
  rewrite bind_run, create_validate_dates_run.
  destruct (create_dates_outcome _ _); [|done].
  rewrite bind_run, announcements_insert_one_run.
  by destruct (find_one_by_id (VOid new_id) _).
Qed.

Lemma str_truthy_Some (x : string) : str_truthy (Some x) = true ↔ x ≠ "".
Proof. destruct x; simpl; split; congruence. Qed.

Lemma create_announcement_teacher now new_id message expiration_date start_date
    teacher_username s r s' :
  create_announcement now new_id message expiration_date start_date
    teacher_username s = (Return r, s') →
  is_Some (find_one_by_id (VStr teacher_username) (teachers_collection s)).
Proof.
  intros Hc.
  destruct (find_one_by_id (VStr teacher_username) (teachers_collection s))
    as [t|] eqn:Ht; [by eexists|].
  unfold create_announcement in Hc.
  by rewrite bind_run, validate_teacher_absent in Hc.
Qed.

(** An empty [start_date] is handled as if none had been supplied. *)
Lemma create_announcement_empty_start_date now new_id message expiration_date
    teacher_username s :
  create_announcement now new_id message expiration_date (Some "")
    teacher_username s
  = create_announcement now new_id message expiration_date None
      teacher_username s.
Proof.
  unfold create_announcement, create_validate_dates, new_announcement.
  reflexivity.
Qed.

(** C3, amended. For a create call by an existing teacher whose
    expiration_date parses: a supplied, non-empty start_date that does not
    parse (after every Z is replaced by +00:00) makes the call fail with
    InvalidDate, and one that parses to a value >= the parsed
    expiration_date makes it fail with InvalidDateOrder; in both cases the
    store is handed back as it was, so no document is inserted. *)
Theorem create_rejects_start_date (s : Store) (now : datetime) (new_id : oid)
    (message expiration_date start_date teacher_username : string)
    (exp_date : datetime) :
  is_Some (find_one_by_id (VStr teacher_username) (teachers_collection s)) →
  parse_date expiration_date = Some exp_date →
  start_date ≠ "" →
  (parse_date start_date = None →
     ∃ e, InvalidDate e
          ∧ create_announcement now new_id message expiration_date
              (Some start_date) teacher_username s = (Raise e, s))
  ∧ (∀ st_date,
       parse_date start_date = Some st_date →
       datetime_ge st_date exp_date = Some true →
       create_announcement now new_id message expiration_date
         (Some start_date) teacher_username s = (Raise InvalidDateOrder, s)).
Proof.
  intros Ht He Hne. apply str_truthy_Some in Hne.
  split.
  - intros Hs. eexists. split; [by left|].
    rewrite create_announcement_run by done.
    unfold create_dates_outcome. rewrite He, Hne. simpl. by rewrite Hs.
  - intros st_date Hs Hge.
    rewrite create_announcement_run by done.
    unfold create_dates_outcome. rewrite He, Hne. simpl. by rewrite Hs, Hge.
Qed.

(** C9, amended. After a create call that succeeds, a get on the
    identifier it returned (the string form of the new ObjectId, which the
    storage engine reads back) yields exactly the document made of the
    message and expiration_date strings as they were supplied, start_date
    as supplied when it was supplied and not empty and absent otherwise,
    created_by the teacher, created_at the formatted clock reading, and the
    identifier as the string field id, the native [_id] being removed. *)
Theorem create_then_get (s s' : Store) (now : datetime) (new_id : oid)
    (message expiration_date : string) (start_date : option string)
    (teacher_username : string) (r : doc) :
  create_announcement now new_id message expiration_date start_date
    teacher_username s = (Return r, s') →
  ObjectId (str_ObjectId new_id) = Some new_id →
  r !! "id" = Some (VStr (str_ObjectId new_id))
  ∧ ∃ d,
      (get_announcement (str_ObjectId new_id) s').1 = Return d
      ∧ d !! "message" = Some (VStr message)
      ∧ d !! "expiration_date" = Some (VStr expiration_date)
      ∧ d !! "start_date"
        = (if str_truthy start_date then VStr <$> start_date else None)
      ∧ d !! "created_by" = Some (VStr teacher_username)
      ∧ d !! "created_at" = Some (VStr (isoformat now))
      ∧ d !! "id" = Some (VStr (str_ObjectId new_id))
      ∧ d !! "_id" = None
      ∧ ∀ k, k ∉ ["message"; "expiration_date"; "start_date"; "created_by";
                  "created_at"; "id"] → d !! k = None.
Proof.
  intros Hc Hid.
  pose proof (create_announcement_teacher _ _ _ _ _ _ _ _ _ Hc) as Ht.
  rewrite create_announcement_run in Hc by done.
  destruct (create_dates_outcome _ _); [|done]. simpl in Hc.
  destruct (find_one_by_id (VOid new_id) (announcements_collection s))
    eqn:Hfresh; [done|].
  injection Hc as <- <-. split; [by rewrite lookup_insert_eq|].
  rewrite get_announcement_run, Hid. simpl.
  rewrite find_one_by_id_app, Hfresh. unfold find_one_by_id. simpl.
  unfold has_id. rewrite lookup_insert_eq, bool_decide_eq_true_2 by done.
  eexists. split; [done|].
  unfold serialize_announcement. rewrite lookup_insert_eq.
  unfold new_announcement.
  destruct start_date as [[|c x]|]; simpl;
    repeat split; try (by simplify_map_eq);
    intros k Hk; rewrite !not_elem_of_cons in Hk;
    destruct Hk as (? & ? & ? & ? & ? & ? & _);
    (destruct (decide (k = "_id")) as [->|]; [apply lookup_delete_eq|]);
    rewrite lookup_delete_ne by done;
    rewrite !lookup_insert_ne by done; apply lookup_empty.
Qed.

End Creation.

(** ** Updates *)

Lemma find_one_by_id_update_first id id' f c :
  (∀ d, f d !! "_id" = d !! "_id") →
  find_one_by_id id' (update_first id f c)
  = if decide (id' = id) then f <$> find_one_by_id id c
    else find_one_by_id id' c.
Proof.
  intros Hf. unfold find_one_by_id.
  induction c as [|d c IH]; simpl; [by case_decide|].
  destruct (has_id id d) eqn:Hd; simpl.
  - unfold has_id at 1. rewrite Hf. fold (has_id id' d).
    case_decide as Hid; [subst id'; by rewrite Hd|].
    destruct (has_id id' d) eqn:Hd'; [|done].
    apply has_id_true in Hd, Hd'. congruence.
  - rewrite IH. case_decide as Hid; [subst id'; by rewrite Hd|done].
Qed.

Lemma id_not_updated : "_id" ∉ ["message"; "expiration_date"; "start_date"].
Proof.
  rewrite !not_elem_of_cons. repeat split; try done. apply not_elem_of_nil.
Qed.

Lemma lookup_union_or (m1 m2 : doc) (k : string) :
  (m1 ∪ m2) !! k = match m1 !! k with Some v => Some v | None => m2 !! k end.
Proof. rewrite lookup_union. by destruct (m1 !! k), (m2 !! k). Qed.

Lemma update_first_compose id f g c :
  (∀ d, f d !! "_id" = d !! "_id") →
  update_first id g (update_first id f c) = update_first id (g ∘ f) c.
Proof.
  intros Hf. induction c as [|d c IH]; simpl; [done|].
  destruct (has_id id d) eqn:Hd; simpl.
  - unfold has_id at 1. rewrite Hf. fold (has_id id d). by rewrite Hd.
  - by rewrite Hd, IH.
Qed.

Lemma update_first_ext id f g c :
  (∀ d, find_one_by_id id c = Some d → f d = g d) →
  update_first id f c = update_first id g c.
Proof.
  unfold find_one_by_id. induction c as [|d c IH]; simpl; [done|].
  destruct (has_id id d); intros Hfg; [by rewrite Hfg|by rewrite IH].
Qed.

Lemma update_first_id id c : update_first id (λ d, d) c = c.
Proof.
  induction c as [|d c IH]; simpl; [done|].
  destruct (has_id id d); by rewrite ?IH.
Qed.

Lemma update_first_Forall (P : doc → Prop) id f c :
  Forall P c →
  (∀ d, find_one_by_id id c = Some d → P d → P (f d)) →
  Forall P (update_first id f c).
Proof.
  unfold find_one_by_id. induction 1 as [|d c Hd Hc IH]; simpl; [constructor|].
  destruct (has_id id d); intros Hf; constructor; auto.
Qed.

Section Updates.
Context `{Runtime}.

Lemma update_expiration_date_run expiration_date update_fields s :
  update_expiration_date expiration_date update_fields s
  = (expiration_date_outcome expiration_date update_fields, s).
Proof.
  unfold update_expiration_date, expiration_date_outcome, parse_date,
    datetime_fromisoformat.
  destruct expiration_date as [e|]; [|done]. munfold.
  by destruct (fromisoformat (replace_Z e)).
Qed.

Lemma update_start_date_run id start_date update_fields s :
  update_start_date id start_date update_fields s
  = (start_date_outcome start_date update_fields,
     start_date_store id start_date s).
Proof.
  unfold update_start_date, start_date_outcome, start_date_store, parse_date,
    datetime_fromisoformat.
  destruct start_date as [x|]; [|done].
  destruct (String.eqb_spec x "") as [->|Hne].
  - rewrite bind_run, announcements_update_one_unset_run. done.
  - rewrite bool_decide_eq_false_2 by congruence. munfold.
    by destruct (fromisoformat (replace_Z x)).
Qed.

Lemma update_validate_order_run final_start final_exp s :
  update_validate_order final_start final_exp s
  = (order_outcome final_start final_exp, s).
Proof.
  unfold update_validate_order, order_outcome, parse_date,
    datetime_fromisoformat, ge, value_replace_Z.
  destruct (value_truthy final_start && value_truthy final_exp); [|done].
  munfold.
  destruct final_start as [[x| |]|]; try done.
  destruct (fromisoformat (replace_Z x)) as [st|]; [|done].
  destruct final_exp as [[y| |]|]; try done.
  destruct (fromisoformat (replace_Z y)) as [ex|]; [|done].
  by destruct (datetime_ge st ex) as [[]|].
Qed.

Lemma update_existing_run id existing message expiration_date start_date s :
  update_existing id existing message expiration_date start_date s
  = match expiration_date_outcome expiration_date (message_fields message) with
    | Raise x => (Raise x, s)
    | Return fields1 =>
        let s1 := start_date_store id start_date s in
        match start_date_outcome start_date fields1 with
        | Raise x => (Raise x, s1)
        | Return update_fields =>
            match order_outcome
                    (dict_get_or update_fields "start_date"
                       (existing !! "start_date"))
                    (dict_get_or update_fields "expiration_date"
                       (existing !! "expiration_date")) with
            | Raise x => (Raise x, s1)
            | Return _ =>
                let s2 := set_store id update_fields s1 in
                (match find_one_by_id (VOid id) (announcements_collection s2)
                 with
                 | Some u => Return (serialize_announcement u)
                 | None => Raise TypeError
                 end, logged (OpFindOne id) s2)
            end
        end
    end.
Proof.
  unfold update_existing. fold (message_fields message).
  rewrite bind_run, update_expiration_date_run.
  destruct (expiration_date_outcome _ _) as [fields1|]; [|done].
  rewrite bind_run, update_start_date_run.
  destruct (start_date_outcome _ _) as [update_fields|]; [|done].
  rewrite bind_run, update_validate_order_run.
  destruct (order_outcome _ _); [|done].
  rewrite bind_run. unfold set_store. simpl.
  case_bool_decide.
  - rewrite announcements_update_one_set_run, bind_run,
      announcements_find_one_run.
    by destruct (find_one_by_id (VOid id) _).
  - unfold mret at 1, M_ret at 1.
    rewrite bind_run, announcements_find_one_run.
    by destruct (find_one_by_id (VOid id) _).
Qed.

Lemma update_announcement_run announcement_id message expiration_date
    start_date teacher_username s id existing :
  is_Some (find_one_by_id (VStr teacher_username) (teachers_collection s)) →
  ObjectId announcement_id = Some id →
  find_one_by_id (VOid id) (announcements_collection s) = Some existing →
  update_announcement announcement_id message expiration_date start_date
    teacher_username s
  = update_existing id existing message expiration_date start_date
      (logged (OpFindOne id) s).
Proof.
  intros Ht Hid Hex. unfold update_announcement.
  rewrite bind_run, validate_teacher_present, Hid by done.
  rewrite bind_run, announcements_find_one_run, find_one_by_id_truthy, Hex.
  done.
Qed.

(** The fields of the update document when both steps have passed. *)
Lemma update_fields_lookup message expiration_date start_date fields1
    update_fields :
  expiration_date_outcome expiration_date (message_fields message)
  = Return fields1 →
  start_date_outcome start_date fields1 = Return update_fields →
  update_fields !! "message" = VStr <$> message
  ∧ update_fields !! "expiration_date" = VStr <$> expiration_date
  ∧ update_fields !! "start_date"
    = (if str_truthy start_date then VStr <$> start_date else None)
  ∧ (∀ k, k ∉ ["message"; "expiration_date"; "start_date"] →
          update_fields !! k = None)
  ∧ (∀ e, expiration_date = Some e → is_Some (parse_date e))
  ∧ (∀ x, start_date = Some x → x ≠ "" → is_Some (parse_date x)).
Proof.
  unfold expiration_date_outcome, start_date_outcome, message_fields.
  intros He Hs.
  destruct expiration_date as [e|];
    [destruct (parse_date e) as [de|] eqn:Hpe; [|done]|];
    (destruct start_date as [[|c x]|]; simpl in Hs;
     [| destruct (parse_date (String c x)) as [ds|] eqn:Hps; [|done] |]);
    destruct message as [m|]; simplify_eq/=;
    (repeat split; try (by simplify_map_eq);
     try (by intros; simplify_eq; eauto);
     intros k Hk; rewrite !not_elem_of_cons in Hk;
     destruct Hk as (? & ? & ? & _);
     rewrite ?lookup_insert_ne by done; apply lookup_empty).
Qed.

(** The values the ordering check reads: the supplied string when a
    non-empty one was supplied, and the field of the document found before
    the update otherwise, also when the empty string was supplied for
    [start_date]. *)
Lemma update_final_values (existing : doc) message expiration_date start_date
    fields1 update_fields :
  expiration_date_outcome expiration_date (message_fields message)
  = Return fields1 →
  start_date_outcome start_date fields1 = Return update_fields →
  dict_get_or update_fields "start_date" (existing !! "start_date")
  = match start_date with
    | Some "" | None => existing !! "start_date"
    | Some x => Some (VStr x)
    end
  ∧ dict_get_or update_fields "expiration_date"
      (existing !! "expiration_date")
    = match expiration_date with
      | Some e => Some (VStr e)
      | None => existing !! "expiration_date"
      end.
Proof.
  intros He Hs.
  destruct (update_fields_lookup _ _ _ _ _ He Hs) as (_ & Hex & Hst & _).
  unfold dict_get_or. rewrite Hex, Hst.
  by destruct start_date as [[|c x]|], expiration_date.
Qed.

(** The announcements after the removal and the [$set], in one step. *)
Lemma update_store_announcements id update_fields start_date s :
  update_fields !! "_id" = None →
  announcements_collection
    (set_store id update_fields (start_date_store id start_date s))
  = update_first (VOid id)
      (λ d, update_fields
            ∪ (if bool_decide (start_date = Some "")
               then delete "start_date" d else d))
      (announcements_collection s).
Proof.
  intros Hnoid. unfold set_store, start_date_store.
  assert (∀ d : doc, delete "start_date" d !! "_id" = d !! "_id") as Hdel
    by (intros d; by rewrite lookup_delete_ne).
  repeat case_bool_decide; simpl.
  - by rewrite update_first_compose.
  - done.
  - apply update_first_ext. intros d _. simplify_eq.
    by rewrite (left_id_L ∅ (∪)).
  - simplify_eq. rewrite <- (update_first_id (VOid id)) at 1.
    apply update_first_ext. intros d _. by rewrite (left_id_L ∅ (∪)).
Qed.

Lemma update_announcement_teacher announcement_id message expiration_date
    start_date teacher_username s r s' :
  update_announcement announcement_id message expiration_date start_date
    teacher_username s = (Return r, s') →
  is_Some (find_one_by_id (VStr teacher_username) (teachers_collection s)).
Proof.
  intros Hu.
  destruct (find_one_by_id (VStr teacher_username) (teachers_collection s))
    as [t|] eqn:Ht; [by eexists|].
  unfold update_announcement in Hu.
  by rewrite bind_run, validate_teacher_absent in Hu.
Qed.

(** C8. When an update call succeeds on the document [old] stored under
    the parsed identifier, the collection afterwards is the one before
    with that document replaced by [new], where message and
    expiration_date hold the supplied strings if supplied and the old
    values otherwise, start_date is absent if the empty string was
    supplied, holds the supplied string if a non-empty one was, and the old
    value otherwise, and every other field (created_by, created_at and any
    further field) is as in [old]; the teachers are untouched; and a call
    that supplies none of the three leaves the collection as it was. *)
Theorem update_writes_supplied_fields_only (s s' : Store)
    (announcement_id : string) (message expiration_date start_date : option string)
    (teacher_username : string) (r : doc) (id : oid) (old : doc) :
  update_announcement announcement_id message expiration_date start_date
    teacher_username s = (Return r, s') →
  ObjectId announcement_id = Some id →
  find_one_by_id (VOid id) (announcements_collection s) = Some old →
  ∃ new : doc,
    announcements_collection s'
    = update_first (VOid id) (λ _, new) (announcements_collection s)
    ∧ teachers_collection s' = teachers_collection s
    ∧ new !! "message"
      = match message with Some m => Some (VStr m) | None => old !! "message" end
    ∧ new !! "expiration_date"
      = match expiration_date with
        | Some e => Some (VStr e)
        | None => old !! "expiration_date"
        end
    ∧ new !! "start_date"
      = match start_date with
        | Some "" => None
        | Some x => Some (VStr x)
        | None => old !! "start_date"
        end
    ∧ (∀ k, k ∉ ["message"; "expiration_date"; "start_date"] →
            new !! k = old !! k)
    ∧ (message = None → expiration_date = None → start_date = None →
       announcements_collection s' = announcements_collection s).
Proof.
  intros Hu Hid Hold.
  pose proof (update_announcement_teacher _ _ _ _ _ _ _ _ Hu) as Ht.
  rewrite (update_announcement_run _ _ _ _ _ _ id old) in Hu by done.
  rewrite update_existing_run in Hu.
  destruct (expiration_date_outcome _ _) as [fields1|] eqn:He; [|done].
  destruct (start_date_outcome _ _) as [update_fields|] eqn:Hs; [|done].
  destruct (order_outcome _ _); [|done].
  apply (f_equal snd) in Hu. simpl in Hu. subst s'.
  destruct (update_fields_lookup _ _ _ _ _ He Hs)
    as (Hm & Hex & Hst & Hother & _).
  assert (update_fields !! "_id" = None) as Hnoid
    by apply Hother, id_not_updated.
  exists (update_fields
          ∪ (if bool_decide (start_date = Some "")
             then delete "start_date" old else old)).
  repeat split.
  - cbn [announcements_collection logged].
    rewrite update_store_announcements by done.
    cbn [announcements_collection logged].
    apply update_first_ext. intros d Hd. by simplify_eq.
  - unfold set_store, start_date_store. by repeat case_bool_decide.
  - rewrite lookup_union_or, Hm.
    destruct message; simpl; [done|].
    case_bool_decide; [by rewrite lookup_delete_ne|done].
  - rewrite lookup_union_or, Hex.
    destruct expiration_date; simpl; [done|].
    case_bool_decide; [by rewrite lookup_delete_ne|done].
  - rewrite lookup_union_or, Hst.
    destruct start_date as [[|c x]|]; simpl; [|done..].
    by rewrite lookup_delete_eq.
  - intros k Hk. rewrite lookup_union_or, (Hother k Hk).
    case_bool_decide; [|done].
    rewrite lookup_delete_ne; [done|].
    intros <-. apply Hk. do 2 right. left.
  - intros -> -> ->. simpl in He, Hs. by simplify_eq.
Qed.

Lemma serialize_announcement_lookup (d : doc) (k : string) :
  k ≠ "id" → k ≠ "_id" → serialize_announcement d !! k = d !! k.
Proof.
  intros Hid Hnat. unfold serialize_announcement.
  destruct (d !! "_id") as [[| |]|]; try done.
  by rewrite lookup_delete_ne, lookup_insert_ne.
Qed.

(** C2, amended. For an update call on an existing announcement by an
    existing teacher that supplies the empty string as start_date and whose
    expiration_date, if supplied, parses: whatever the call returns or
    raises afterwards, the document stored under the identifier has no
    start_date once the call is over, and a get of the same id shows
    none. *)
Theorem update_empty_start_date_unsets (s : Store) (announcement_id : string)
    (message expiration_date : option string) (teacher_username : string)
    (id : oid) (old : doc) :
  is_Some (find_one_by_id (VStr teacher_username) (teachers_collection s)) →
  ObjectId announcement_id = Some id →
  find_one_by_id (VOid id) (announcements_collection s) = Some old →
  (∀ e, expiration_date = Some e → is_Some (parse_date e)) →
  let s' := (update_announcement announcement_id message expiration_date
               (Some "") teacher_username s).2 in
  (∃ d, find_one_by_id (VOid id) (announcements_collection s') = Some d
        ∧ d !! "start_date" = None)
  ∧ (∃ d, (get_announcement announcement_id s').1 = Return d
          ∧ d !! "start_date" = None).
Proof.
  intros Ht Hid Hold Hexp s'.
  assert (∃ d, find_one_by_id (VOid id) (announcements_collection s') = Some d
               ∧ d !! "start_date" = None) as (d & Hd & Hnone).
  { subst s'.
    rewrite (update_announcement_run _ _ _ _ _ _ id old) by done.
    rewrite update_existing_run.
    destruct (expiration_date_outcome _ _) as [fields1|] eqn:He.
    2:{ unfold expiration_date_outcome in He.
        destruct expiration_date as [x|]; [|done].
        destruct (Hexp x eq_refl) as [de Hde]. by rewrite Hde in He. }
    assert (start_date_outcome (Some "") fields1 = Return fields1) as Hs by done.
    rewrite Hs.
    destruct (update_fields_lookup _ _ _ _ _ He Hs) as (_ & _ & Hst & Hother & _).
    assert (∀ d : doc, delete "start_date" d !! "_id" = d !! "_id") as Hdel
      by (intros d; by rewrite lookup_delete_ne).
    destruct (order_outcome _ _).
    - cbn [snd announcements_collection logged].
      rewrite update_store_announcements.
      2:{ apply Hother, id_not_updated. }
      cbn [announcements_collection logged].
      rewrite find_one_by_id_update_first.
      2:{ intros d. rewrite lookup_union_or, Hother by apply id_not_updated.
          by rewrite bool_decide_eq_true_2, Hdel. }
      rewrite decide_True, Hold by done. simpl. eexists. split; [done|].
      rewrite lookup_union_or, Hst. simpl. by rewrite lookup_delete_eq.
    - cbn [snd]. unfold start_date_store.
      rewrite bool_decide_eq_true_2 by done.
      cbn [announcements_collection logged with_announcements].
      rewrite find_one_by_id_update_first by done.
      rewrite decide_True, Hold by done. simpl. eexists. split; [done|].
      by rewrite lookup_delete_eq. }
  split; [by eauto|].
  rewrite get_announcement_run, Hid. simpl. rewrite Hd.
  eexists. split; [done|].
  by rewrite serialize_announcement_lookup.
Qed.

End Updates.

(** ** The ordering invariant of stored dates *)

Lemma delete_first_Forall (P : doc → Prop) id c :
  Forall P c → Forall P (delete_first id c).
Proof.
  induction 1 as [|d c Hd Hc IH]; simpl; [constructor|].
  destruct (has_id id d); [done|by constructor].
Qed.

Lemma datetime_ge_false a b : datetime_ge a b = Some false → datetime_lt a b.
Proof.
  unfold datetime_ge, datetime_lt. by destruct (datetime_cmp a b) as [[]|].
Qed.

Section Invariant.
Context `{Runtime}.

Lemma parse_date_nonempty x d :
  fromisoformat "" = None → parse_date x = Some d → x ≠ "".
Proof. intros Hempty Hx ->. unfold parse_date in Hx. simpl in Hx. congruence. Qed.

Lemma order_outcome_Return x y dx dy :
  order_outcome (Some (VStr x)) (Some (VStr y)) = Return () →
  x ≠ "" → y ≠ "" →
  parse_date x = Some dx → parse_date y = Some dy →
  datetime_lt dx dy.
Proof.
  intros Ho Hx Hy Hpx Hpy. unfold order_outcome in Ho.
  destruct x as [|cx x]; [done|]. destruct y as [|cy y]; [done|].
  cbn [value_truthy str_truthy andb] in Ho. rewrite Hpx, Hpy in Ho.
  apply datetime_ge_false. by destruct (datetime_ge dx dy) as [[]|].
Qed.

Lemma dates_valid_new now new_id message expiration_date start_date
    teacher_username :
  create_dates_outcome expiration_date start_date = Return () →
  dates_valid (<["_id" := VOid new_id]>
                 (new_announcement now message expiration_date start_date
                    teacher_username)).
Proof.
  unfold create_dates_outcome, new_announcement. intros Ho.
  destruct (parse_date expiration_date) as [de|] eqn:He; [|done].
  exists expiration_date, de.
  destruct start_date as [[|c x]|]; simpl in *;
    (split; [by simplify_map_eq|]); (split; [done|]);
    simplify_map_eq; [done| |done].
  destruct (parse_date (String c x)) as [dx|] eqn:Hx; [|done].
  exists (String c x), dx. repeat split; [done|].
  apply datetime_ge_false. by destruct (datetime_ge dx de) as [[]|].
Qed.

Lemma dates_valid_delete_start_date d :
  dates_valid d → dates_valid (delete "start_date" d).
Proof.
  intros (e & de & He & Hpe & _). exists e, de.
  by rewrite lookup_delete_ne, lookup_delete_eq.
Qed.

Lemma dates_valid_update old message expiration_date start_date fields1
    update_fields :
  fromisoformat "" = None →
  dates_valid old →
  expiration_date_outcome expiration_date (message_fields message)
  = Return fields1 →
  start_date_outcome start_date fields1 = Return update_fields →
  order_outcome
    (dict_get_or update_fields "start_date" (old !! "start_date"))
    (dict_get_or update_fields "expiration_date" (old !! "expiration_date"))
  = Return () →
  dates_valid (update_fields
               ∪ (if bool_decide (start_date = Some "")
                  then delete "start_date" old else old)).
Proof.
  intros Hempty (e0 & de0 & Hoe & Hpe0 & Hos) He Hs Ho.
  destruct (update_fields_lookup _ _ _ _ _ He Hs)
    as (_ & Hex & Hst & _ & Hpe & Hps).
  unfold dict_get_or in Ho. rewrite Hex, Hst in Ho.
  assert (∃ e de,
            match VStr <$> expiration_date with
            | Some v => Some v
            | None => old !! "expiration_date"
            end = Some (VStr e)
            ∧ parse_date e = Some de
            ∧ (expiration_date = None → de = de0)) as (e & de & Hfe & Hpde & Hsame).
  { destruct expiration_date as [e|]; simpl.
    - destruct (Hpe e eq_refl) as [de Hde]. by exists e, de.
    - by exists e0, de0. }
  rewrite Hfe in Ho.
  pose proof (parse_date_nonempty _ _ Hempty Hpde) as Hne.
  exists e, de. split; [|split; [done|]].
  { rewrite lookup_union_or, Hex, <- Hfe.
    destruct expiration_date; simpl; [done|].
    case_bool_decide; [by rewrite lookup_delete_ne|done]. }
  rewrite lookup_union_or, Hst.
  destruct start_date as [[|c x]|]; simpl in *.
  - by rewrite lookup_delete_eq.
  - destruct (Hps _ eq_refl) as [dx Hdx]; [done|].
    exists (String c x), dx. repeat split; [done|].
    by eapply order_outcome_Return.
  - destruct (old !! "start_date") as [v|]; [|done].
    destruct Hos as (x & dx & -> & Hdx & Hlt).
    exists x, dx. repeat split; [done|].
    eapply order_outcome_Return; eauto using parse_date_nonempty.
Qed.

(** *** Properties of documents kept by every handler *)

Section Preservation.
Variable P : doc → Prop.
Hypothesis P_new :
  ∀ now new_id message expiration_date start_date teacher_username,
    create_dates_outcome expiration_date start_date = Return () →
    P (<["_id" := VOid new_id]>
         (new_announcement now message expiration_date start_date
            teacher_username)).
Hypothesis P_unset : ∀ d, P d → P (delete "start_date" d).
Hypothesis P_update :
  ∀ old message expiration_date start_date fields1 update_fields,
    P old →
    expiration_date_outcome expiration_date (message_fields message)
    = Return fields1 →
    start_date_outcome start_date fields1 = Return update_fields →
    order_outcome
      (dict_get_or update_fields "start_date" (old !! "start_date"))
      (dict_get_or update_fields "expiration_date" (old !! "expiration_date"))
    = Return () →
    P (update_fields
       ∪ (if bool_decide (start_date = Some "")
          then delete "start_date" old else old)).

Lemma create_announcement_preserves now new_id message expiration_date
    start_date teacher_username s :
  Forall P (announcements_collection s) →
  Forall P (announcements_collection
              (create_announcement now new_id message expiration_date
                 start_date teacher_username s).2).
Proof.
  intros Hs.
  destruct (find_one_by_id (VStr teacher_username) (teachers_collection s))
    as [t|] eqn:Ht.
  - rewrite create_announcement_run by (by eexists; apply Ht).
    destruct (create_dates_outcome _ _) eqn:Ho; [|done]. destruct a.
    cbn zeta. destruct (find_one_by_id (VOid new_id) _); [done|].
    cbn [snd announcements_collection with_announcements logged].
    apply Forall_app. split; [done|]. constructor; [|constructor].
    by apply P_new.
  - unfold create_announcement.
    by rewrite bind_run, validate_teacher_absent.
Qed.

Lemma start_date_store_preserves id start_date s :
  Forall P (announcements_collection s) →
  Forall P (announcements_collection (start_date_store id start_date s)).
Proof.
  intros Hs. unfold start_date_store. case_bool_decide; [|done].
  cbn [announcements_collection with_announcements logged].
  apply update_first_Forall; auto.
Qed.

Lemma update_existing_preserves id existing message expiration_date
    start_date s :
  find_one_by_id (VOid id) (announcements_collection s) = Some existing →
  Forall P (announcements_collection s) →
  Forall P (announcements_collection
              (update_existing id existing message expiration_date
                 start_date s).2).
Proof.
  intros Hex Hs. rewrite update_existing_run.
  destruct (expiration_date_outcome _ _) as [fields1|] eqn:He; [|done].
  cbn zeta.
  destruct (start_date_outcome _ _) as [update_fields|] eqn:Hst;
    [|by apply start_date_store_preserves].
  destruct (order_outcome _ _) as [[]|] eqn:Ho;
    [|by apply start_date_store_preserves].
  cbn [snd announcements_collection logged].
  rewrite update_store_announcements.
  2:{ destruct (update_fields_lookup _ _ _ _ _ He Hst) as (_ & _ & _ & Hother & _).
      apply Hother, id_not_updated. }
  apply update_first_Forall; [done|].
  intros d Hd Hpd. rewrite Hex in Hd. injection Hd as <-. by eapply P_update.
Qed.

Lemma update_announcement_preserves announcement_id message expiration_date
    start_date teacher_username s :
  Forall P (announcements_collection s) →
  Forall P (announcements_collection
              (update_announcement announcement_id message expiration_date
                 start_date teacher_username s).2).
Proof.
  intros Hs. unfold update_announcement.
  rewrite bind_run, validate_teacher_run.
  destruct (find_one_by_id (VStr teacher_username) _); [|done].
  destruct (ObjectId announcement_id) as [id|]; [|done].
  rewrite bind_run, announcements_find_one_run, find_one_by_id_truthy.
  destruct (find_one_by_id (VOid id) (announcements_collection s))
    as [existing|] eqn:Hex; [|done].
  cbn [bool_decide negb default]. rewrite bool_decide_eq_true_2 by by eexists.
  by apply update_existing_preserves.
Qed.

Lemma delete_announcement_preserves announcement_id teacher_username s :
  Forall P (announcements_collection s) →
  Forall P (announcements_collection
              (delete_announcement announcement_id teacher_username s).2).
Proof.
  intros Hs. unfold delete_announcement.
  rewrite bind_run, validate_teacher_run.
  destruct (find_one_by_id (VStr teacher_username) _); [|done].
  destruct (ObjectId announcement_id) as [id|]; [|done].
  rewrite bind_run, announcements_delete_one_run.
  assert (Forall P (delete_first (VOid id) (announcements_collection s)))
    by by apply delete_first_Forall.
  by destruct (find_one_by_id (VOid id) (announcements_collection s)).
Qed.

Lemma reachable_Forall s : reachable s → Forall P (announcements_collection s).
Proof.
  induction 1 as [t|s t _ IH|s now a _ IH|s i _ IH|s now n m e st u _ IH
                  |s i m e st u _ IH|s i u _ IH].
  - constructor.
  - done.
  - done.
  - rewrite get_announcement_run. by destruct (ObjectId i).
  - by apply create_announcement_preserves.
  - by apply update_announcement_preserves.
  - by apply delete_announcement_preserves.
Qed.

End Preservation.

End Invariant.

(** ** The sort order *)

Section ComparisonFacts.
Context {A : Type} (cmp : A → A → comparison).
Hypothesis cmp_antisym : ∀ a b, cmp a b = CompOpp (cmp b a).
Hypothesis cmp_eq : ∀ a b, cmp a b = Eq → a = b.
Hypothesis cmp_lt_trans : ∀ a b c, cmp a b = Lt → cmp b c = Lt → cmp a c = Lt.

Lemma cmp_ge_trans a b c : cmp a b ≠ Lt → cmp b c ≠ Lt → cmp a c ≠ Lt.
Proof.
  intros Hab Hbc Hac.
  destruct (cmp a b) eqn:Eab; [|done|].
  - apply cmp_eq in Eab. subst b. done.
  - destruct (cmp b c) eqn:Ebc; [|done|].
    + apply cmp_eq in Ebc. subst c. congruence.
    + assert (cmp c b = Lt) as Hcb by (rewrite cmp_antisym, Ebc; done).
      assert (cmp b a = Lt) as Hba by (rewrite cmp_antisym, Eab; done).
      pose proof (cmp_lt_trans _ _ _ Hcb Hba) as Hca.
      rewrite cmp_antisym, Hca in Hac. done.
Qed.

End ComparisonFacts.

Lemma string_compare_lt_trans (a b c : string) :
  String.compare a b = Lt → String.compare b c = Lt → String.compare a c = Lt.
Proof.
  revert b c. induction a as [|x a IH]; intros [|y b] [|z c]; simpl; try done.
  destruct (Ascii.compare x y) eqn:Hxy; try done;
    destruct (Ascii.compare y z) eqn:Hyz; try done.
  - apply Ascii.compare_eq_iff in Hxy, Hyz. subst y z.
    unfold Ascii.compare. rewrite N.compare_refl. apply IH.
  - apply Ascii.compare_eq_iff in Hxy. subst y. by rewrite Hyz.
  - apply Ascii.compare_eq_iff in Hyz. subst z. by rewrite Hxy.
  - unfold Ascii.compare in *. rewrite N.compare_lt_iff in Hxy, Hyz.
    intros _ _.
    assert (N.compare (N_of_ascii x) (N_of_ascii z) = Lt) as ->; [|done].
    apply N.compare_lt_iff. lia.
Qed.

Lemma key_cmp_antisym a b : key_cmp a b = CompOpp (key_cmp b a).
Proof.
  destruct a as [[x|x|x]|], b as [[y|y|y]|]; simpl; try done.
  - apply String.compare_antisym.
  - apply N.compare_antisym.
  - apply Z.compare_antisym.
Qed.

Lemma key_cmp_eq a b : key_cmp a b = Eq → a = b.
Proof.
  destruct a as [[x|x|x]|], b as [[y|y|y]|]; simpl; try done; intros Hc.
  - by apply String.compare_eq_iff in Hc as ->.
  - by apply N.compare_eq_iff in Hc as ->.
  - by apply Z.compare_eq_iff in Hc as ->.
Qed.

Lemma key_cmp_lt_trans a b c :
  key_cmp a b = Lt → key_cmp b c = Lt → key_cmp a c = Lt.
Proof.
  destruct a as [[x|x|x]|], b as [[y|y|y]|], c as [[z|z|z]|]; simpl;
    try done.
  - apply string_compare_lt_trans.
  - rewrite !N.compare_lt_iff. lia.
  - rewrite !Z.compare_lt_iff. lia.
Qed.

Global Instance desc_by_total k : Total (desc_by k).
Proof.
  intros a b. unfold desc_by. rewrite (key_cmp_antisym (b !! k)).
  destruct (key_cmp (a !! k) (b !! k)); simpl; auto.
Qed.

Global Instance desc_by_transitive k : Transitive (desc_by k).
Proof.
  intros a b c. unfold desc_by.
  apply (cmp_ge_trans key_cmp key_cmp_antisym key_cmp_eq key_cmp_lt_trans).
Qed.

(** A list sorted in descending order whose keys are pairwise distinct is
    strictly descending. *)
Lemma StronglySorted_desc_strict k (l : list doc) :
  StronglySorted (desc_by k) l →
  NoDup ((λ d : doc, d !! k) <$> l) →
  StronglySorted (λ a b, key_cmp (a !! k) (b !! k) = Gt) l.
Proof.
  induction 1 as [|d l Hl IH Hd]; intros Hnd; [constructor|].
  apply NoDup_cons in Hnd as [Hnotin Hnd]. constructor; [auto|].
  apply Forall_forall. intros d' Hd'.
  rewrite Forall_forall in Hd. specialize (Hd d' Hd'). unfold desc_by in Hd.
  destruct (key_cmp (d !! k) (d' !! k)) eqn:Hc; [|done..].
  apply key_cmp_eq in Hc. exfalso. apply Hnotin. rewrite Hc.
  apply list_elem_of_fmap. by exists d'.
Qed.

(** ** Listing *)

Section Listing.
Context `{Runtime}.

Lemma get_announcements_run now active_only s :
  get_announcements now active_only s
  = (Return (serialize_announcement
             <$> merge_sort (desc_by "created_at")
                   (filter (λ d, matches (if active_only then active_query now
                                          else QAll) d = true)
                      (announcements_collection s))),
     logged OpFind s).
Proof. unfold get_announcements, active_query. by destruct active_only. Qed.

Lemma filter_QAll (c : list doc) : filter (λ d, matches QAll d = true) c = c.
Proof.
  induction c as [|d c IH]; [done|].
  by rewrite filter_cons_True, IH.
Qed.

(** A document whose [expiration_date] is a string is not matched by the
    filter, which compares the field with a date. *)
Lemma active_query_string_expiration now (d : doc) e :
  d !! "expiration_date" = Some (VStr e) → matches (active_query now) d = false.
Proof. intros He. simpl. rewrite He. simpl. apply andb_false_r. Qed.

(** What the filter does select: the documents whose [expiration_date] is a
    BSON date not before [now] and whose [start_date] is absent or a BSON
    date not after [now]. *)
Lemma cond_matches_absent (field : option value) :
  cond_matches (Exists false) field = true ↔ field = None.
Proof.
  simpl. rewrite bool_decide_eq_true. split.
  - intros Hx. destruct field; [|done].
    exfalso. by assert (false = true) by (apply Hx; eauto).
  - intros ->. split; [by intros [? ?]|done].
Qed.

Lemma cond_matches_Lte_date (bound : Z) (field : option value) :
  cond_matches (Lte (VDate bound)) field = true
  ↔ ∃ x, field = Some (VDate x) ∧ x ≤ bound.
Proof.
  destruct field as [[x|x|x]|]; simpl;
    try (split; [done|by intros (? & ? & ?)]).
  destruct (Z.compare_spec x bound); split;
    try done; try (intros _; exists x; split; [done|lia]).
  intros (? & ? & ?). simplify_eq. lia.
Qed.

Lemma cond_matches_Gte_date (bound : Z) (field : option value) :
  cond_matches (Gte (VDate bound)) field = true
  ↔ ∃ x, field = Some (VDate x) ∧ bound ≤ x.
Proof.
  destruct field as [[x|x|x]|]; simpl;
    try (split; [done|by intros (? & ? & ?)]).
  destruct (Z.compare_spec x bound); split;
    try done; try (intros _; exists x; split; [done|lia]).
  intros (? & ? & ?). simplify_eq. lia.
Qed.

Lemma active_query_matches now (d : doc) :
  matches (active_query now) d = true
  ↔ (d !! "start_date" = None
     ∨ ∃ st, d !! "start_date" = Some (VDate st) ∧ st ≤ datetime_to_millis now)
    ∧ ∃ ex, d !! "expiration_date" = Some (VDate ex)
            ∧ datetime_to_millis now ≤ ex.
Proof.
  unfold active_query. cbn [matches].
  rewrite andb_true_iff, orb_true_iff.
  by rewrite cond_matches_absent, cond_matches_Lte_date, cond_matches_Gte_date.
Qed.

(** The handlers store [expiration_date] as the string they were given. *)
Lemma reachable_expiration_string s :
  reachable s →
  Forall (λ d : doc, ∃ e, d !! "expiration_date" = Some (VStr e))
    (announcements_collection s).
Proof.
  apply reachable_Forall.
  - intros now new_id message expiration_date start_date teacher_username _.
    exists expiration_date. unfold new_announcement.
    destruct (str_truthy start_date); by simplify_map_eq.
  - intros d [e He]. exists e. by rewrite lookup_delete_ne.
  - intros old message expiration_date start_date fields1 update_fields
      [e0 He0] He Hs _.
    destruct (update_fields_lookup _ _ _ _ _ He Hs) as (_ & Hex & _).
    rewrite lookup_union_or, Hex.
    destruct expiration_date as [e|]; simpl; [by exists e|].
    exists e0. case_bool_decide; [by rewrite lookup_delete_ne|done].
Qed.

(** C7. On every store the handlers can produce, the listing with
    [active_only] true is empty, whatever the clock reads: the filter
    compares [expiration_date] with a date, and the handlers store it as a
    string, so an announcement that create has just stored with a start
    in the past and an expiration in the future is not listed. *)
Theorem active_only_lists_nothing (s : Store) (now : datetime) :
  reachable s →
  get_announcements now true s = (Return [], logged OpFind s).
Proof.
  intros Hr. rewrite get_announcements_run.
  assert (filter (λ d, matches (active_query now) d = true)
            (announcements_collection s) = []) as ->; [|done].
  pose proof (reachable_expiration_string s Hr) as Hall.
  induction Hall as [|d c [e He] _ IH]; [done|].
  rewrite filter_cons_False; [done|].
  by rewrite (active_query_string_expiration now d e He).
Qed.

(** Over any stored documents, the listing with [active_only] true
    returns documents selected by the filter only: [expiration_date] is a
    date not before [now], and [start_date] is absent or a date not after
    [now]. *)
Lemma active_only_selected (s : Store) (now : datetime) (l : list doc) (r : doc) :
  (get_announcements now true s).1 = Return l →
  r ∈ l →
  (r !! "start_date" = None
   ∨ ∃ st, r !! "start_date" = Some (VDate st) ∧ st ≤ datetime_to_millis now)
  ∧ ∃ ex, r !! "expiration_date" = Some (VDate ex)
          ∧ datetime_to_millis now ≤ ex.
Proof.
  rewrite get_announcements_run. cbn [fst]. intros [= <-] Hr.
  apply list_elem_of_fmap in Hr as (d & -> & Hd).
  rewrite merge_sort_Permutation in Hd.
  apply list_elem_of_filter in Hd as [Hm _].
  rewrite !serialize_announcement_lookup by done.
  by apply active_query_matches.
Qed.

(** C10. The listing with [active_only] false returns every stored
    announcement, shaped, in descending order of [created_at]: the result
    is a permutation of the shaped collection in which no document comes
    before one with a greater [created_at]; it is the empty list, and no
    error, when nothing is stored; and when the stored [created_at] values
    are pairwise distinct the order is strictly descending. *)
Theorem list_all_descending (s : Store) (now : datetime) :
  ∃ l,
    (get_announcements now false s).1 = Return l
    ∧ l ≡ₚ serialize_announcement <$> announcements_collection s
    ∧ StronglySorted (desc_by "created_at") l
    ∧ (announcements_collection s = [] → l = [])
    ∧ (NoDup ((λ d : doc, d !! "created_at") <$> announcements_collection s) →
       StronglySorted
         (λ a b, key_cmp (a !! "created_at") (b !! "created_at") = Gt) l).
Proof.
  rewrite get_announcements_run, filter_QAll. cbn [fst].
  eexists. split; [done|].
  assert (serialize_announcement
          <$> merge_sort (desc_by "created_at") (announcements_collection s)
          ≡ₚ serialize_announcement <$> announcements_collection s) as Hperm
    by (by rewrite merge_sort_Permutation).
  assert (StronglySorted (desc_by "created_at")
            (serialize_announcement
             <$> merge_sort (desc_by "created_at") (announcements_collection s)))
    as Hsorted.
  { eapply StronglySorted_fmap; [|apply StronglySorted_merge_sort; apply _].
    intros x y. unfold desc_by.
    by rewrite !serialize_announcement_lookup. }
  repeat split; [done..| |].
  - by intros ->.
  - intros Hnd. apply StronglySorted_desc_strict; [done|].
    rewrite Hperm, <- list_fmap_compose.
    erewrite list_fmap_ext; [apply Hnd|].
    intros i d _. simpl. by rewrite serialize_announcement_lookup.
Qed.

End Listing.

(** ** The invariant on reachable stores *)

Section Ordering.
Context `{Runtime}.

Lemma reachable_dates_valid s :
  fromisoformat "" = None →
  reachable s → Forall dates_valid (announcements_collection s).
Proof.
  intros Hempty. apply reachable_Forall.
  - intros. by apply dates_valid_new.
  - apply dates_valid_delete_start_date.
  - intros. by eapply dates_valid_update.
Qed.

(** C5. In every store the handlers can produce from an empty collection
    (by create calls, and by update and delete calls, whether they succeed
    or not), a document that has both a start_date and an expiration_date
    holds two strings that parse, the start_date to a value strictly
    earlier than the expiration_date.  The parser is assumed to reject the
    empty string, as [datetime.fromisoformat] does. *)
Theorem stored_dates_strictly_ordered (s : Store) :
  fromisoformat "" = None →
  reachable s →
  ∀ (d : doc) (vs ve : value),
    d ∈ announcements_collection s →
    d !! "start_date" = Some vs →
    d !! "expiration_date" = Some ve →
    ∃ x e dx de,
      vs = VStr x ∧ ve = VStr e
      ∧ parse_date x = Some dx ∧ parse_date e = Some de
      ∧ datetime_lt dx de.
Proof.
  intros Hempty Hr d vs ve Hd Hs He.
  pose proof (reachable_dates_valid s Hempty Hr) as Hall.
  rewrite Forall_forall in Hall.
  destruct (Hall d Hd) as (e & de & He' & Hpe & Hstart).
  rewrite Hs in Hstart. destruct Hstart as (x & dx & -> & Hpx & Hlt).
  exists x, e, dx, de. repeat split; congruence.
Qed.

End Ordering.

(** ** Facts about the school *)

Example school_created :
  @create_announcement Reference.runtime morning 7%N "Exam Friday"
    "2030-01-01T00:00:00Z" (Some "2025-01-01T00:00:00Z") "t1" empty_school
  = (Return (<["id" := VStr exam_id]> exam), school).
Proof. vm_refl. Qed.

Example school_announcements : announcements_collection school = [exam].
Proof. vm_refl. Qed.

Lemma school_reachable : @reachable Reference.runtime school.
Proof. apply reachable_create, reachable_init. Qed.

Lemma school_teacher :
  find_one_by_id (VStr "t1") (teachers_collection school) = Some teacher_t1.
Proof. vm_refl. Qed.

Lemma school_exam :
  find_one_by_id (VOid 7%N) (announcements_collection school) = Some exam.
Proof. vm_refl. Qed.


Example exam_fields :
  (λ k, exam !! k)
  <$> ["message"; "expiration_date"; "start_date"; "created_by"; "created_at"]
  = [Some (VStr "Exam Friday"); Some (VStr "2030-01-01T00:00:00Z");
     Some (VStr "2025-01-01T00:00:00Z"); Some (VStr "t1");
     Some (VStr "2026-11-04T10:00:00")].
Proof. vm_refl. Qed.

(** ** The handlers on the school *)

(** C1. On the exam, stored with start_date 2025-01-01 and
    expiration_date 2030-01-01, an update that supplies the empty string
    as start_date together with the expiration_date 2024-06-01 raises
    InvalidDateOrder: the ordering check reads the start_date of the
    document as it was found before the removal.  The removal has been
    applied by then and the expiration_date has not been written. *)
Theorem update_removal_checked_against_old_start_date :
  let call :=
    @update_announcement Reference.runtime exam_id None
      (Some "2024-06-01T00:00:00Z") (Some "") "t1" school in
  find_one_by_id (VOid 7%N) (announcements_collection school) = Some exam
  ∧ exam !! "start_date" = Some (VStr "2025-01-01T00:00:00Z")
  ∧ exam !! "expiration_date" = Some (VStr "2030-01-01T00:00:00Z")
  ∧ call.1 = Raise InvalidDateOrder
  ∧ announcements_collection call.2 = [delete "start_date" exam].
Proof. cbv zeta. repeat split; vm_refl. Qed.

(** C2 as stated fails: with an expiration_date that does not parse, the
    call raises before the removal, and a get still shows the
    start_date. *)
Lemma update_bad_expiration_keeps_start_date :
  let call :=
    @update_announcement Reference.runtime exam_id None (Some "bad") (Some "")
      "t1" school in
  find_one_by_id (VStr "t1") (teachers_collection school) = Some teacher_t1
  ∧ find_one_by_id (VOid 7%N) (announcements_collection school) = Some exam
  ∧ Reference.ObjectId exam_id = Some 7%N
  ∧ call.1 = Raise (HTTPException 400 "Invalid expiration date format")
  ∧ (λ d : doc, d !! "start_date")
    <$> returned (@get_announcement Reference.runtime exam_id call.2).1
    = Some (Some (VStr "2025-01-01T00:00:00Z")).
Proof. cbv zeta. repeat split; vm_refl. Qed.

Lemma update_empty_start_date_unsets_witness :
  let s' :=
    (@update_announcement Reference.runtime exam_id None
       (Some "2024-06-01T00:00:00Z") (Some "") "t1" school).2 in
  (∃ d, find_one_by_id (VOid 7%N) (announcements_collection s') = Some d
        ∧ d !! "start_date" = None)
  ∧ (∃ d, (@get_announcement Reference.runtime exam_id s').1 = Return d
          ∧ d !! "start_date" = None).
Proof.
  apply (@update_empty_start_date_unsets Reference.runtime school exam_id None
           (Some "2024-06-01T00:00:00Z") "t1" 7%N exam).
  - eexists. apply school_teacher.
  - vm_refl.
  - apply school_exam.
  - intros e [= <-]. exists (mk_datetime 2024 6 1 0 0 0 0 (Some 0)).
    vm_refl.
Defined.

(** C3 as stated fails: an empty start_date does not parse, yet the call
    succeeds and a document is inserted. *)
Lemma create_empty_start_date_accepted :
  let call :=
    @create_announcement Reference.runtime morning 8%N "Exam Friday"
      "2030-01-01T00:00:00Z" (Some "") "t1" empty_school in
  find_one_by_id (VStr "t1") (teachers_collection empty_school)
  = Some teacher_t1
  ∧ @parse_date Reference.runtime "2030-01-01T00:00:00Z"
    = Some (mk_datetime 2030 1 1 0 0 0 0 (Some 0))
  ∧ @parse_date Reference.runtime "" = None
  ∧ (λ d : doc, d !! "message") <$> returned call.1
    = Some (Some (VStr "Exam Friday"))
  ∧ length (announcements_collection empty_school) = 0%nat
  ∧ length (announcements_collection call.2) = 1%nat.
Proof. cbv zeta. repeat split; vm_refl. Qed.

Lemma create_rejects_start_date_witness :
  (∃ e, InvalidDate e
        ∧ @create_announcement Reference.runtime morning 8%N "Exam Friday"
            "2030-01-01T00:00:00Z" (Some "next week") "t1" school
          = (Raise e, school))
  ∧ @create_announcement Reference.runtime morning 8%N "Exam Friday"
      "2030-01-01T00:00:00Z" (Some "2030-01-01T00:00:00+00:00") "t1" school
    = (Raise InvalidDateOrder, school).
Proof.
  assert (@parse_date Reference.runtime "2030-01-01T00:00:00Z"
          = Some (mk_datetime 2030 1 1 0 0 0 0 (Some 0))) as Hexp
    by (vm_refl).
  assert (is_Some (find_one_by_id (VStr "t1") (teachers_collection school)))
    as Ht by (eexists; apply school_teacher).
  destruct (@create_rejects_start_date Reference.runtime school morning 8%N
              "Exam Friday" "2030-01-01T00:00:00Z" "next week" "t1" _
              Ht Hexp ltac:(done)) as [Hbad _].
  destruct (@create_rejects_start_date Reference.runtime school morning 8%N
              "Exam Friday" "2030-01-01T00:00:00Z" "2030-01-01T00:00:00+00:00"
              "t1" _ Ht Hexp ltac:(done)) as [_ Hlate].
  split.
  - apply Hbad. vm_refl.
  - apply (Hlate (mk_datetime 2030 1 1 0 0 0 0 (Some 0)));
      vm_refl.
Defined.

Lemma unauthorized_before_any_access_witness :
  find_one_by_id (VStr "mallory") (teachers_collection school) = None
  ∧ @create_announcement Reference.runtime morning 8%N "Party" "not a date"
      (Some "tomorrow") "mallory" school = (Raise Unauthorized, school)
  ∧ @update_announcement Reference.runtime "not-a-valid-id" None
      (Some "not a date") (Some "") "mallory" school
    = (Raise Unauthorized, school)
  ∧ @delete_announcement Reference.runtime "not-a-valid-id" "mallory" school
    = (Raise Unauthorized, school).
Proof.
  assert (find_one_by_id (VStr "mallory") (teachers_collection school) = None)
    as Hn by (vm_refl).
  destruct (@unauthorized_before_any_access Reference.runtime school "mallory"
              Hn) as (Hc & Hu & Hd).
  split; [exact Hn|]. split; [apply Hc|]. split; [apply Hu|apply Hd].
Defined.

Lemma stored_dates_strictly_ordered_witness :
  @fromisoformat Reference.runtime "" = None
  ∧ ∀ (d : doc) (vs ve : value),
      d ∈ announcements_collection school →
      d !! "start_date" = Some vs →
      d !! "expiration_date" = Some ve →
      ∃ x e dx de,
        vs = VStr x ∧ ve = VStr e
        ∧ @parse_date Reference.runtime x = Some dx
        ∧ @parse_date Reference.runtime e = Some de
        ∧ datetime_lt dx de.
Proof.
  assert (@fromisoformat Reference.runtime "" = None) as Hempty
    by (vm_refl).
  split; [exact Hempty|].
  apply (@stored_dates_strictly_ordered Reference.runtime school Hempty
           school_reachable).
Defined.


Example identifier_errors_school :
  (@get_announcement Reference.runtime "not-a-valid-id" school).1
  = Raise InvalidIdentifier
  ∧ (@delete_announcement Reference.runtime "not-a-valid-id" "t1" school).1
    = Raise InvalidIdentifier
  ∧ (@get_announcement Reference.runtime "00000000000000000000000a" school).1
    = Raise NotFound
  ∧ (@delete_announcement Reference.runtime exam_id "t1" school).1
    = Return {["message" := VStr "Announcement deleted successfully"]}
  ∧ (@delete_announcement Reference.runtime exam_id "t1"
       (@delete_announcement Reference.runtime exam_id "t1" school).2).1
    = Raise NotFound.
Proof. repeat split; vm_refl. Qed.

Lemma active_only_lists_nothing_witness :
  (announcements_collection school = [exam]
   ∧ exam !! "start_date" = Some (VStr "2025-01-01T00:00:00Z")
   ∧ exam !! "expiration_date" = Some (VStr "2030-01-01T00:00:00Z")
   ∧ datetime_to_millis <$> @parse_date Reference.runtime "2025-01-01T00:00:00Z"
     = Some 1735689600000
   ∧ datetime_to_millis morning = 1793786400000
   ∧ datetime_to_millis <$> @parse_date Reference.runtime "2030-01-01T00:00:00Z"
     = Some 1893456000000)
  ∧ @get_announcements Reference.runtime morning true school
    = (Return [], logged OpFind school).
Proof.
  split; [repeat split; vm_refl|].
  apply (@active_only_lists_nothing Reference.runtime school morning
           school_reachable).
Defined.

Lemma update_writes_supplied_fields_only_witness :
  ∃ new : doc,
    announcements_collection
      (@update_announcement Reference.runtime exam_id (Some "Exam Monday")
         None None "t1" school).2
    = update_first (VOid 7%N) (λ _, new) (announcements_collection school)
    ∧ teachers_collection
        (@update_announcement Reference.runtime exam_id (Some "Exam Monday")
           None None "t1" school).2
      = teachers_collection school
    ∧ new !! "message" = Some (VStr "Exam Monday")
    ∧ new !! "expiration_date" = exam !! "expiration_date"
    ∧ new !! "start_date" = exam !! "start_date"
    ∧ (∀ k, k ∉ ["message"; "expiration_date"; "start_date"] →
            new !! k = exam !! k).
Proof.
  assert (@update_announcement Reference.runtime exam_id (Some "Exam Monday")
            None None "t1" school
          = (Return (<["id" := VStr exam_id]>
                       (delete "_id" (<["message" := VStr "Exam Monday"]> exam))),
             (@update_announcement Reference.runtime exam_id
                (Some "Exam Monday") None None "t1" school).2)) as Hcall
    by (vm_refl).
  assert (Reference.ObjectId exam_id = Some 7%N) as Hid
    by (vm_refl).
  destruct (@update_writes_supplied_fields_only Reference.runtime school _
              exam_id (Some "Exam Monday") None None "t1" _ 7%N exam Hcall
              Hid school_exam)
    as (new & Hstore & Hteachers & Hm & He & Hs & Hother & _).
  exists new. auto 10.
Defined.

(** C9 as stated fails: a start_date supplied as the empty string is not
    stored, so the document read back has none. *)
Lemma create_empty_start_date_not_stored :
  let call :=
    @create_announcement Reference.runtime morning 8%N "Exam Friday"
      "2030-01-01T00:00:00Z" (Some "") "t1" empty_school in
  (λ d : doc, d !! "id") <$> returned call.1
  = Some (Some (VStr "000000000000000000000008"))
  ∧ (λ d : doc, d !! "start_date")
    <$> returned
          (@get_announcement Reference.runtime "000000000000000000000008"
             call.2).1
    = Some None.
Proof. cbv zeta. split; vm_refl. Qed.

Lemma create_then_get_witness :
  (<["id" := VStr exam_id]> exam) !! "id"
  = Some (VStr (@str_ObjectId Reference.runtime 7%N))
  ∧ ∃ d,
      (@get_announcement Reference.runtime
         (@str_ObjectId Reference.runtime 7%N) school).1 = Return d
      ∧ d !! "message" = Some (VStr "Exam Friday")
      ∧ d !! "expiration_date" = Some (VStr "2030-01-01T00:00:00Z")
      ∧ d !! "start_date"
        = (if str_truthy (Some "2025-01-01T00:00:00Z")
           then VStr <$> Some "2025-01-01T00:00:00Z" else None)
      ∧ d !! "created_by" = Some (VStr "t1")
      ∧ d !! "created_at" = Some (VStr (@isoformat Reference.runtime morning))
      ∧ d !! "id" = Some (VStr (@str_ObjectId Reference.runtime 7%N))
      ∧ d !! "_id" = None
      ∧ ∀ k, k ∉ ["message"; "expiration_date"; "start_date"; "created_by";
                  "created_at"; "id"] → d !! k = None.
Proof.
  assert (@ObjectId Reference.runtime (@str_ObjectId Reference.runtime 7%N)
          = Some 7%N) as Hid by (vm_refl).
  apply (@create_then_get Reference.runtime empty_school school morning 7%N
           "Exam Friday" "2030-01-01T00:00:00Z" (Some "2025-01-01T00:00:00Z")
           "t1" _ school_created Hid).
Defined.

Example list_all_descending_example :
  let s :=
    mk_Store [teacher_t1]
      [ {["_id" := VOid 1%N; "created_at" := VStr "2026-11-04T10:00:00"]};
        {["_id" := VOid 2%N; "created_at" := VStr "2026-11-05T09:30:00"]};
        {["_id" := VOid 3%N; "created_at" := VStr "2026-11-04T10:00:00.5"]} ]
      [] in
  match (@get_announcements Reference.runtime morning false s).1 with
  | Return l => (λ d : doc, d !! "id") <$> l
  | Raise _ => []
  end
  = [Some (VStr "000000000000000000000002");
     Some (VStr "000000000000000000000003");
     Some (VStr "000000000000000000000001")].
Proof. cbv zeta. vm_refl. Qed.

(** * Further properties of the handlers *)

(** ** Shaping *)

Section Shaping.
Context `{Runtime}.

Lemma serialize_announcement_oid (d : doc) (o : oid) :
  d !! "_id" = Some (VOid o) →
  serialize_announcement d
  = delete "_id" (<["id" := VStr (str_ObjectId o)]> d).
Proof. intros Hd. unfold serialize_announcement. by rewrite Hd. Qed.

Lemma serialize_announcement_other (d : doc) :
  (∀ o, d !! "_id" ≠ Some (VOid o)) → serialize_announcement d = d.
Proof.
  intros Hd. unfold serialize_announcement.
  destruct (d !! "_id") as [[| o |]|] eqn:E; try done. by destruct (Hd o).
Qed.

Lemma serialize_announcement_no_oid (d : doc) (o : oid) :
  serialize_announcement d !! "_id" ≠ Some (VOid o).
Proof.
  unfold serialize_announcement.
  destruct (d !! "_id") as [[| o' |]|] eqn:E; try congruence.
  by rewrite lookup_delete_eq.
Qed.

(** X1. Shaping a document whose [_id] is an ObjectId removes [_id], puts
    the string form of the identifier under [id] (over any [id] the
    document had) and keeps every other field; a document with no [_id]
    or with an [_id] of another type is returned as it is; and shaping a
    shaped document changes nothing. *)
Theorem serialize_announcement_shape (d : doc) :
  (∀ o, d !! "_id" = Some (VOid o) →
        serialize_announcement d !! "id" = Some (VStr (str_ObjectId o))
        ∧ serialize_announcement d !! "_id" = None
        ∧ ∀ k, k ≠ "id" → k ≠ "_id" → serialize_announcement d !! k = d !! k)
  ∧ ((∀ o, d !! "_id" ≠ Some (VOid o)) → serialize_announcement d = d)
  ∧ serialize_announcement (serialize_announcement d) = serialize_announcement d.
Proof.
  split; [|split].
  - intros o Hd. rewrite (serialize_announcement_oid d o Hd).
    split; [by rewrite lookup_delete_ne, lookup_insert_eq|].
    split; [by rewrite lookup_delete_eq|].
    intros k Hk Hk'. by rewrite lookup_delete_ne, lookup_insert_ne.
  - apply serialize_announcement_other.
  - apply serialize_announcement_other. intros o.
    apply serialize_announcement_no_oid.
Qed.

End Shaping.

(** ** The [replace] applied to date strings *)

Lemma replace_Z_app (s t : string) :
  replace_Z (String.append s t) = String.append (replace_Z s) (replace_Z t).
Proof.
  induction s as [|c s IH]; simpl; [done|].
  rewrite IH. by destruct (Ascii.eqb c "Z").
Qed.

(** X2. The replacement leaves no [Z] in a date string, whatever its
    position, keeps a string without [Z] as it is, and applying it twice
    is applying it once; in particular a trailing [Z] becomes [+00:00]. *)
Theorem replace_Z_every_Z (s : string) :
  (("Z"%char : ascii) ∉ list_ascii_of_string (replace_Z s))
  ∧ (("Z"%char : ascii) ∉ list_ascii_of_string s → replace_Z s = s)
  ∧ replace_Z (replace_Z s) = replace_Z s
  ∧ replace_Z (String.append s "Z") = String.append (replace_Z s) "+00:00".
Proof.
  assert (("Z"%char : ascii) ∉ list_ascii_of_string (replace_Z s)) as Hno.
  { induction s as [|c s IH]; simpl; [apply not_elem_of_nil|].
    destruct (Ascii.eqb_spec c "Z") as [->|Hc]; simpl.
    - rewrite !not_elem_of_cons. by repeat split.
    - rewrite not_elem_of_cons. split; [congruence|done]. }
  assert (∀ t, ("Z"%char : ascii) ∉ list_ascii_of_string t → replace_Z t = t) as Hid.
  { induction t as [|c t IH]; simpl; [done|].
    rewrite not_elem_of_cons. intros [Hc Ht].
    destruct (Ascii.eqb_spec c "Z") as [->|_]; [done|]. by rewrite IH. }
  repeat split; [done|apply Hid|by apply Hid|].
  by rewrite replace_Z_app.
Qed.

(** ** What each writing handler does to the store *)

Section Cases.
Context `{Runtime}.

Lemma start_date_store_teachers id start_date s :
  teachers_collection (start_date_store id start_date s) = teachers_collection s.
Proof. unfold start_date_store. by case_bool_decide. Qed.

Lemma set_store_teachers id update_fields s :
  teachers_collection (set_store id update_fields s) = teachers_collection s.
Proof. unfold set_store. by case_bool_decide. Qed.

Lemma start_date_outcome_Raise start_date fields1 e :
  start_date_outcome start_date fields1 = Raise e → start_date ≠ Some "".
Proof. by intros Hs ->. Qed.

(** The two ways a create call ends. *)
Lemma create_announcement_cases now new_id message expiration_date start_date
    teacher_username s :
  let call := create_announcement now new_id message expiration_date start_date
                teacher_username s in
  teachers_collection call.2 = teachers_collection s
  ∧ ((∃ e, call.1 = Raise e
           ∧ announcements_collection call.2 = announcements_collection s)
     ∨ (is_Some (find_one_by_id (VStr teacher_username) (teachers_collection s))
        ∧ create_dates_outcome expiration_date start_date = Return ()
        ∧ find_one_by_id (VOid new_id) (announcements_collection s) = None
        ∧ call.1
          = Return (<["id" := VStr (str_ObjectId new_id)]>
                      (<["_id" := VOid new_id]>
                         (new_announcement now message expiration_date
                            start_date teacher_username)))
        ∧ announcements_collection call.2
          = (announcements_collection s
             ++ [<["_id" := VOid new_id]>
                   (new_announcement now message expiration_date start_date
                      teacher_username)])%list)).
Proof.
  cbv zeta.
  destruct (find_one_by_id (VStr teacher_username) (teachers_collection s))
    as [t|] eqn:Ht.
  - rewrite create_announcement_run by (by eexists; apply Ht).
    destruct (create_dates_outcome _ _) as [[]|e] eqn:Ho; [|by eauto].
    cbv zeta.
    destruct (find_one_by_id (VOid new_id) _) eqn:Hfresh; [by eauto|].
    split; [done|]. right. by eauto 10.
  - unfold create_announcement.
    rewrite bind_run, validate_teacher_absent by done. by eauto.
Qed.

(** The two ways a delete call ends. *)
Lemma delete_announcement_cases announcement_id teacher_username s :
  let call := delete_announcement announcement_id teacher_username s in
  teachers_collection call.2 = teachers_collection s
  ∧ ((∃ e, call.1 = Raise e
           ∧ announcements_collection call.2 = announcements_collection s)
     ∨ (∃ id d,
          is_Some (find_one_by_id (VStr teacher_username)
                     (teachers_collection s))
          ∧ ObjectId announcement_id = Some id
          ∧ find_one_by_id (VOid id) (announcements_collection s) = Some d
          ∧ call.1
            = Return {["message" := VStr "Announcement deleted successfully"]}
          ∧ announcements_collection call.2
            = delete_first (VOid id) (announcements_collection s))).
Proof.
  cbv zeta.
  destruct (find_one_by_id (VStr teacher_username) (teachers_collection s))
    as [t|] eqn:Ht.
  - rewrite delete_announcement_run by (by eexists; apply Ht).
    destruct (ObjectId announcement_id) as [id|]; [|by eauto].
    destruct (find_one_by_id (VOid id) (announcements_collection s))
      as [d|] eqn:Hd.
    + split; [done|]. right. exists id, d. by eauto 10.
    + split; [done|]. left. eexists. split; [done|].
      cbn [snd announcements_collection with_announcements logged].
      by apply delete_first_absent.
  - unfold delete_announcement.
    rewrite bind_run, validate_teacher_absent by done. by eauto.
Qed.

(** The three ways an update call ends: it raises and has written nothing;
    it raises after the removal of [start_date], which is then the only
    change; or it returns, the document found having been rewritten. *)
Lemma update_announcement_cases announcement_id message expiration_date
    start_date teacher_username s :
  let call := update_announcement announcement_id message expiration_date
                start_date teacher_username s in
  teachers_collection call.2 = teachers_collection s
  ∧ ((∃ e, call.1 = Raise e
           ∧ announcements_collection call.2 = announcements_collection s)
     ∨ (∃ e id old,
          call.1 = Raise e ∧ start_date = Some ""
          ∧ ObjectId announcement_id = Some id
          ∧ find_one_by_id (VOid id) (announcements_collection s) = Some old
          ∧ announcements_collection call.2
            = update_first (VOid id) (delete "start_date")
                (announcements_collection s))
     ∨ (∃ id old fields1 update_fields,
          is_Some (find_one_by_id (VStr teacher_username)
                     (teachers_collection s))
          ∧ ObjectId announcement_id = Some id
          ∧ find_one_by_id (VOid id) (announcements_collection s) = Some old
          ∧ expiration_date_outcome expiration_date (message_fields message)
            = Return fields1
          ∧ start_date_outcome start_date fields1 = Return update_fields
          ∧ order_outcome
              (dict_get_or update_fields "start_date" (old !! "start_date"))
              (dict_get_or update_fields "expiration_date"
                 (old !! "expiration_date")) = Return ()
          ∧ call.1
            = Return (serialize_announcement
                        (update_fields
                         ∪ (if bool_decide (start_date = Some "")
                            then delete "start_date" old else old)))
          ∧ announcements_collection call.2
            = update_first (VOid id)
                (λ d, update_fields
                      ∪ (if bool_decide (start_date = Some "")
                         then delete "start_date" d else d))
                (announcements_collection s))).
Proof.
  cbv zeta. unfold update_announcement.
  rewrite bind_run, validate_teacher_run.
  destruct (find_one_by_id (VStr teacher_username) _) as [t|] eqn:Ht;
    [|by eauto].
  destruct (ObjectId announcement_id) as [id|] eqn:Hid; [|by eauto].
  rewrite bind_run, announcements_find_one_run, find_one_by_id_truthy.
  destruct (find_one_by_id (VOid id) (announcements_collection s))
    as [old|] eqn:Hold; [|by eauto].
  rewrite bool_decide_eq_true_2 by by eexists.
  change (default ∅ (Some old)) with old. cbn [negb].
  rewrite update_existing_run.
  destruct (expiration_date_outcome _ _) as [fields1|e] eqn:He; [|by eauto].
  cbv zeta.
  destruct (start_date_outcome _ _) as [update_fields|e] eqn:Hs.
  2:{ apply start_date_outcome_Raise in Hs as Hne.
      unfold start_date_store. rewrite bool_decide_eq_false_2 by done.
      by eauto. }
  destruct (update_fields_lookup _ _ _ _ _ He Hs) as (_ & _ & _ & Hother & _).
  destruct (order_outcome _ _) as [[]|e] eqn:Ho.
  - cbn [fst snd teachers_collection announcements_collection logged].
    rewrite set_store_teachers, start_date_store_teachers.
    cbn [teachers_collection logged]. split; [done|].
    rewrite update_store_announcements by apply Hother, id_not_updated.
    cbn [announcements_collection logged].
    do 2 right. exists id, old, fields1, update_fields.
    repeat split; try done.
    rewrite find_one_by_id_update_first, decide_True, Hold by
      (done || (intros d; rewrite lookup_union_or, Hother by apply id_not_updated;
                case_bool_decide; [by rewrite lookup_delete_ne|done])).
    done.
  - cbn [fst snd]. rewrite start_date_store_teachers.
    cbn [teachers_collection logged]. split; [done|].
    unfold start_date_store. case_bool_decide as Hst.
    + right. left. exists e, id, old. by repeat split.
    + left. by eauto.
Qed.

End Cases.

(** ** Identifiers in the collection *)

Lemma update_first_ids id f (c : list doc) :
  (∀ d, f d !! "_id" = d !! "_id") →
  (λ d : doc, d !! "_id") <$> update_first id f c
  = (λ d : doc, d !! "_id") <$> c.
Proof.
  intros Hf. induction c as [|d c IH]; simpl; [done|].
  destruct (has_id id d); csimpl; [by rewrite Hf|by rewrite IH].
Qed.

Lemma delete_first_sublist id (c : list doc) : delete_first id c `sublist_of` c.
Proof.
  induction c as [|d c IH]; simpl; [done|].
  destruct (has_id id d); [by apply sublist_cons|by apply sublist_skip].
Qed.

Lemma delete_first_unique id c : unique_ids c → unique_ids (delete_first id c).
Proof.
  unfold unique_ids. intros Hc. eapply sublist_NoDup; [exact Hc|].
  apply fmap_sublist, delete_first_sublist.
Qed.

Lemma find_one_by_id_delete_first id id' c :
  id' ≠ id → find_one_by_id id' (delete_first id c) = find_one_by_id id' c.
Proof.
  intros Hne. unfold find_one_by_id. induction c as [|d c IH]; simpl; [done|].
  destruct (has_id id d) eqn:Hd; simpl.
  - destruct (has_id id' d) eqn:Hd'; [|done].
    apply has_id_true in Hd, Hd'. congruence.
  - by rewrite IH.
Qed.

Lemma delete_first_length id c d :
  find_one_by_id id c = Some d → S (length (delete_first id c)) = length c.
Proof.
  unfold find_one_by_id. induction c as [|x c IH]; simpl; [done|].
  destruct (has_id id x); [done|]. intros Hd. simpl. by rewrite IH.
Qed.

(** The functions an update applies to the document it found keep [_id]
    and every field outside [updatable]. *)
Lemma update_function_frame (update_fields : doc) (start_date : option string)
    (d : doc) (k : string) :
  (∀ k, k ∉ updatable → update_fields !! k = None) →
  k ∉ updatable →
  (update_fields
   ∪ (if bool_decide (start_date = Some "") then delete "start_date" d else d))
  !! k = d !! k.
Proof.
  intros Hother Hk. rewrite lookup_union_or, Hother by done.
  case_bool_decide; [|done]. rewrite lookup_delete_ne; [done|].
  intros <-. apply Hk. unfold updatable. do 2 right. left.
Qed.

Lemma delete_start_date_frame (d : doc) (k : string) :
  k ∉ updatable → delete "start_date" d !! k = d !! k.
Proof.
  intros Hk. rewrite lookup_delete_ne; [done|].
  intros <-. apply Hk. unfold updatable. do 2 right. left.
Qed.

Lemma update_first_length id f (c : list doc) :
  length (update_first id f c) = length c.
Proof.
  induction c as [|d c IH]; simpl; [done|].
  destruct (has_id id d); simpl; by rewrite ?IH.
Qed.

(** ** Effects of the handlers on the collections *)

Section Effects.
Context `{Runtime}.

(** X3. No handler writes to the teachers collection, and the two reading
    handlers, list and get, leave the announcements collection as it is,
    whatever their arguments and whatever they return or raise. *)
Theorem collections_left_alone (s : Store) :
  (∀ now active_only,
     teachers_collection (get_announcements now active_only s).2
     = teachers_collection s
     ∧ announcements_collection (get_announcements now active_only s).2
       = announcements_collection s)
  ∧ (∀ announcement_id,
       teachers_collection (get_announcement announcement_id s).2
       = teachers_collection s
       ∧ announcements_collection (get_announcement announcement_id s).2
         = announcements_collection s)
  ∧ (∀ now new_id message expiration_date start_date teacher_username,
       teachers_collection
         (create_announcement now new_id message expiration_date start_date
            teacher_username s).2 = teachers_collection s)
  ∧ (∀ announcement_id message expiration_date start_date teacher_username,
       teachers_collection
         (update_announcement announcement_id message expiration_date
            start_date teacher_username s).2 = teachers_collection s)
  ∧ (∀ announcement_id teacher_username,
       teachers_collection
         (delete_announcement announcement_id teacher_username s).2
       = teachers_collection s).
Proof.
  split; [|split; [|split; [|split]]].
  - intros now active_only. by rewrite get_announcements_run.
  - intros announcement_id. rewrite get_announcement_run.
    by destruct (ObjectId announcement_id).
  - intros. apply create_announcement_cases.
  - intros. apply update_announcement_cases.
  - intros. apply delete_announcement_cases.
Qed.

(** X4. An update call that raises has written nothing to the
    announcements, with one exception: when the empty string was supplied
    as start_date and the call raises after the removal, the start_date of
    the document found under the identifier has been removed, and that is
    the only change. *)
Theorem failed_update_writes (s : Store) (announcement_id : string)
    (message expiration_date start_date : option string)
    (teacher_username : string) (e : exn) :
  (update_announcement announcement_id message expiration_date start_date
     teacher_username s).1 = Raise e →
  announcements_collection
    (update_announcement announcement_id message expiration_date start_date
       teacher_username s).2 = announcements_collection s
  ∨ (start_date = Some ""
     ∧ ∃ id, ObjectId announcement_id = Some id
             ∧ announcements_collection
                 (update_announcement announcement_id message expiration_date
                    start_date teacher_username s).2
               = update_first (VOid id) (delete "start_date")
                   (announcements_collection s)).
Proof.
  intros Hraise.
  destruct (update_announcement_cases announcement_id message expiration_date
              start_date teacher_username s)
    as (_ & [(e' & _ & Hsame)
            |[(e' & id & old & _ & Hst & Hid & _ & Hstore)
             |(id & old & f1 & uf & _ & _ & _ & _ & _ & _ & Hret & _)]]).
  - by left.
  - right. split; [done|]. by exists id.
  - rewrite Hret in Hraise. done.
Qed.

(** X5. A create call that raises inserts nothing, and a delete call that
    raises removes nothing: the announcements collection is as it was. *)
Theorem failed_create_or_delete_writes_nothing (s : Store) :
  (∀ now new_id message expiration_date start_date teacher_username e,
     (create_announcement now new_id message expiration_date start_date
        teacher_username s).1 = Raise e →
     announcements_collection
       (create_announcement now new_id message expiration_date start_date
          teacher_username s).2 = announcements_collection s)
  ∧ (∀ announcement_id teacher_username e,
       (delete_announcement announcement_id teacher_username s).1 = Raise e →
       announcements_collection
         (delete_announcement announcement_id teacher_username s).2
       = announcements_collection s).
Proof.
  split.
  - intros now new_id message expiration_date start_date teacher_username e
      Hraise.
    destruct (create_announcement_cases now new_id message expiration_date
                start_date teacher_username s)
      as (_ & [(e' & _ & Hsame)|(_ & _ & _ & Hret & _)]); [done|].
    rewrite Hret in Hraise. done.
  - intros announcement_id teacher_username e Hraise.
    destruct (delete_announcement_cases announcement_id teacher_username s)
      as (_ & [(e' & _ & Hsame)|(id & d & _ & _ & _ & Hret & _)]); [done|].
    rewrite Hret in Hraise. done.
Qed.

(** X6. For an update call by an existing teacher: an identifier the
    storage engine cannot parse gives InvalidIdentifier before any access
    to the announcements, and one that parses but matches no stored
    document gives NotFound, the announcements being left as they were;
    the other arguments are not looked at. *)
Theorem update_identifier_errors (s : Store) (announcement_id : string)
    (message expiration_date start_date : option string)
    (teacher_username : string) :
  is_Some (find_one_by_id (VStr teacher_username) (teachers_collection s)) →
  match ObjectId announcement_id with
  | None =>
      update_announcement announcement_id message expiration_date start_date
        teacher_username s = (Raise InvalidIdentifier, s)
  | Some id =>
      find_one_by_id (VOid id) (announcements_collection s) = None →
      update_announcement announcement_id message expiration_date start_date
        teacher_username s = (Raise NotFound, logged (OpFindOne id) s)
  end.
Proof.
  intros Ht. unfold update_announcement.
  rewrite bind_run, validate_teacher_present by done.
  destruct (ObjectId announcement_id) as [id|]; [|done].
  intros Hn.
  by rewrite bind_run, announcements_find_one_run, find_one_by_id_truthy, Hn.
Qed.

(** X7. For an update call on an existing announcement by an existing
    teacher: a supplied expiration_date that does not parse makes the call
    fail with 400 "Invalid expiration date format", and, the
    expiration_date being absent or parsing, a supplied non-empty
    start_date that does not parse makes it fail with 400 "Invalid start
    date format"; in both cases nothing has been written. *)
Theorem update_rejects_dates (s : Store) (announcement_id : string)
    (message expiration_date start_date : option string)
    (teacher_username : string) (id : oid) (old : doc) :
  is_Some (find_one_by_id (VStr teacher_username) (teachers_collection s)) →
  ObjectId announcement_id = Some id →
  find_one_by_id (VOid id) (announcements_collection s) = Some old →
  (∀ e, expiration_date = Some e → parse_date e = None →
        update_announcement announcement_id message expiration_date start_date
          teacher_username s
        = (Raise (HTTPException 400 "Invalid expiration date format"),
           logged (OpFindOne id) s))
  ∧ (∀ x, start_date = Some x → x ≠ "" → parse_date x = None →
          (∀ e, expiration_date = Some e → is_Some (parse_date e)) →
          update_announcement announcement_id message expiration_date
            start_date teacher_username s
          = (Raise (HTTPException 400 "Invalid start date format"),
             logged (OpFindOne id) s)).
Proof.
  intros Ht Hid Hold.
  rewrite (update_announcement_run _ _ _ _ _ _ id old) by done.
  rewrite update_existing_run. split.
  - intros e -> He. unfold expiration_date_outcome. by rewrite He.
  - intros x -> Hne Hx Hexp.
    assert (∃ fields1,
              expiration_date_outcome expiration_date (message_fields message)
              = Return fields1) as [fields1 ->].
    { unfold expiration_date_outcome. destruct expiration_date as [e|]; [|by eauto].
      destruct (Hexp e eq_refl) as [de ->]. by eauto. }
    cbv zeta. unfold start_date_outcome, start_date_store.
    destruct (String.eqb_spec x "") as [->|_]; [done|].
    rewrite Hx. rewrite bool_decide_eq_false_2 by congruence. done.
Qed.

(** X8. When an update call returns, the document it returns is the one a
    get of the same identifier returns next. *)
Theorem update_returns_what_get_returns (s s' : Store)
    (announcement_id : string) (message expiration_date start_date : option string)
    (teacher_username : string) (r : doc) :
  update_announcement announcement_id message expiration_date start_date
    teacher_username s = (Return r, s') →
  (get_announcement announcement_id s').1 = Return r.
Proof.
  intros Hu.
  destruct (update_announcement_cases announcement_id message expiration_date
              start_date teacher_username s)
    as (_ & [(e' & Hraise & _)
            |[(e' & id & old & Hraise & _)
             |(id & old & f1 & uf & _ & Hid & Hold & He & Hs & _ & Hret
               & Hstore)]]);
    rewrite Hu in *; try done.
  cbn [fst snd] in *. injection Hret as ->.
  destruct (update_fields_lookup _ _ _ _ _ He Hs) as (_ & _ & _ & Hother & _).
  rewrite get_announcement_run, Hid. cbn [fst]. rewrite Hstore.
  rewrite find_one_by_id_update_first, decide_True, Hold; [done..|].
  intros d. apply update_function_frame; [done|apply id_not_updated].
Qed.

(** X9. An update call, whether it returns or raises, neither adds nor
    removes a document, and changes no field other than message,
    expiration_date and start_date in any document: a document found
    under an identifier before the call is found under it afterwards with
    the same created_by, created_at, [_id] and further fields. *)
Theorem update_touches_updatable_fields_only (s : Store)
    (announcement_id : string) (message expiration_date start_date : option string)
    (teacher_username : string) :
  let s' := (update_announcement announcement_id message expiration_date
               start_date teacher_username s).2 in
  length (announcements_collection s') = length (announcements_collection s)
  ∧ ∀ (id : value) (d : doc),
      find_one_by_id id (announcements_collection s) = Some d →
      ∃ d', find_one_by_id id (announcements_collection s') = Some d'
            ∧ ∀ k, k ∉ updatable → d' !! k = d !! k.
Proof.
  cbv zeta.
  assert (∀ (target : value) (f : doc → doc),
            (∀ d k, k ∉ updatable → f d !! k = d !! k) →
            length (update_first target f (announcements_collection s))
            = length (announcements_collection s)
            ∧ ∀ (id : value) (d : doc),
                find_one_by_id id (announcements_collection s) = Some d →
                ∃ d', find_one_by_id id
                        (update_first target f (announcements_collection s))
                      = Some d'
                      ∧ ∀ k, k ∉ updatable → d' !! k = d !! k) as Hframe.
  { intros target f Hf. split; [apply update_first_length|].
    intros id d Hd.
    rewrite find_one_by_id_update_first by (intros; apply Hf, id_not_updated).
    case_decide as Hid; [subst id; rewrite Hd|]; by eauto. }
  destruct (update_announcement_cases announcement_id message expiration_date
              start_date teacher_username s)
    as (_ & [(e' & _ & ->)
            |[(e' & id & old & _ & _ & _ & _ & ->)
             |(id & old & f1 & uf & _ & _ & _ & He & Hs & _ & _ & ->)]]).
  - split; [done|]. by eauto.
  - apply Hframe. intros d k Hk. by apply delete_start_date_frame.
  - destruct (update_fields_lookup _ _ _ _ _ He Hs) as (_ & _ & _ & Hother & _).
    apply Hframe. intros d k Hk. by apply update_function_frame.
Qed.

End Effects.

(** ** Invariants of the reachable stores *)

Section Reachable.
Context `{Runtime}.

Lemma new_announcement_fields now message expiration_date start_date
    teacher_username :
  let d := new_announcement now message expiration_date start_date
             teacher_username in
  d !! "_id" = None
  ∧ d !! "id" = None
  ∧ d !! "message" = Some (VStr message)
  ∧ d !! "expiration_date" = Some (VStr expiration_date)
  ∧ d !! "created_by" = Some (VStr teacher_username)
  ∧ d !! "created_at" = Some (VStr (isoformat now))
  ∧ d !! "start_date"
    = (if str_truthy start_date then VStr <$> start_date else None).
Proof.
  cbv zeta. unfold new_announcement.
  destruct start_date as [[|c x]|]; simpl; repeat split; by simplify_map_eq.
Qed.

(** X10. In every store the handlers can produce from an empty
    collection, no two announcements carry the same [_id]. *)
Theorem reachable_unique_ids (s : Store) :
  reachable s → unique_ids (announcements_collection s).
Proof.
  unfold unique_ids.
  induction 1 as [t|s t _ IH|s now a _ IH|s i _ IH|s now n m e st u _ IH
                  |s i m e st u _ IH|s i u _ IH].
  - constructor.
  - done.
  - by rewrite get_announcements_run.
  - rewrite get_announcement_run. by destruct (ObjectId i).
  - destruct (create_announcement_cases now n m e st u s)
      as (_ & [(e' & _ & ->)|(_ & _ & Hfresh & _ & ->)]); [done|].
    rewrite fmap_app. apply NoDup_app. split; [done|]. split.
    + intros x Hx Hin. apply list_elem_of_singleton in Hin. subst x.
      apply list_elem_of_fmap in Hx as (d & Hd & Hin).
      rewrite lookup_insert_eq in Hd.
      by eapply find_one_by_id_None in Hfresh.
    + apply NoDup_singleton.
  - destruct (update_announcement_cases i m e st u s)
      as (_ & [(e' & _ & ->)
              |[(e' & id & old & _ & _ & _ & _ & ->)
               |(id & old & f1 & uf & _ & _ & _ & He & Hs & _ & _ & ->)]]).
    + done.
    + rewrite update_first_ids; [done|].
      intros d. apply delete_start_date_frame, id_not_updated.
    + destruct (update_fields_lookup _ _ _ _ _ He Hs)
        as (_ & _ & _ & Hother & _).
      rewrite update_first_ids; [done|].
      intros d. apply update_function_frame; [done|apply id_not_updated].
  - destruct (delete_announcement_cases i u s)
      as (_ & [(e' & _ & ->)|(id & d & _ & _ & _ & _ & ->)]); [done|].
    by apply delete_first_unique.
Qed.

(** X11. In every store the handlers can produce from an empty
    collection, each announcement has an ObjectId under [_id], strings
    under message, expiration_date, created_by and created_at, and either
    no start_date or a string under it. *)
Theorem reachable_well_shaped (s : Store) :
  reachable s → Forall well_shaped (announcements_collection s).
Proof.
  apply reachable_Forall.
  - intros now new_id message expiration_date start_date teacher_username _.
    destruct (new_announcement_fields now message expiration_date start_date
                teacher_username) as (_ & _ & Hm & He & Hu & Ht & Hs).
    unfold well_shaped. rewrite lookup_insert_eq.
    rewrite !lookup_insert_ne by done. rewrite Hm, He, Hu, Ht, Hs.
    repeat split; try by eauto.
    destruct start_date as [[|c x]|]; simpl; by eauto.
  - intros d (Hid & Hm & He & Hu & Ht & _). unfold well_shaped.
    rewrite lookup_delete_eq, !lookup_delete_ne by done. by eauto 10.
  - intros old message expiration_date start_date fields1 update_fields
      (Hid & Hm & He & Hu & Ht & Hst) Hex Hs _.
    destruct (update_fields_lookup _ _ _ _ _ Hex Hs)
      as (Hfm & Hfe & Hfs & Hother & _).
    assert (∀ k, k ∉ updatable →
              (update_fields
               ∪ (if bool_decide (start_date = Some "")
                  then delete "start_date" old else old)) !! k = old !! k)
      as Hframe by (intros; by apply update_function_frame).
    unfold well_shaped.
    rewrite (Hframe "_id"), (Hframe "created_by"), (Hframe "created_at");
      try (unfold updatable; rewrite !not_elem_of_cons; repeat split;
           try done; apply not_elem_of_nil).
    rewrite !lookup_union_or, Hfm, Hfe, Hfs.
    split; [done|]. split.
    { destruct message; simpl; [by eauto|].
      case_bool_decide; [by rewrite lookup_delete_ne|done]. }
    split.
    { destruct expiration_date; simpl; [by eauto|].
      case_bool_decide; [by rewrite lookup_delete_ne|done]. }
    split; [done|]. split; [done|].
    destruct start_date as [[|c x]|]; simpl.
    + left. by rewrite lookup_delete_eq.
    + by eauto.
    + done.
Qed.

End Reachable.

(** ** Creation and deletion, when they succeed and when they do not *)

Section CreateDelete.
Context `{Runtime}.

Lemma datetime_ge_lt a b : datetime_lt a b → datetime_ge a b = Some false.
Proof. unfold datetime_lt, datetime_ge. by intros ->. Qed.


(** X13. With an identifier not yet stored, a create call returns exactly
    when the teacher exists, expiration_date parses, and start_date is
    absent, empty, or parses to a strictly earlier value; the collection
    is then the old one followed by one new document, which holds the
    supplied strings, the teacher and the formatted clock reading. *)
Theorem create_succeeds (s : Store) (now : datetime) (new_id : oid)
    (message expiration_date : string) (start_date : option string)
    (teacher_username : string) :
  find_one_by_id (VOid new_id) (announcements_collection s) = None →
  let call := create_announcement now new_id message expiration_date
                start_date teacher_username s in
  ((∃ r, call.1 = Return r)
   ↔ is_Some (find_one_by_id (VStr teacher_username) (teachers_collection s))
     ∧ ∃ exp_date,
         parse_date expiration_date = Some exp_date
         ∧ (start_date = None ∨ start_date = Some ""
            ∨ ∃ x st_date,
                start_date = Some x ∧ parse_date x = Some st_date
                ∧ datetime_lt st_date exp_date))
  ∧ ((∃ r, call.1 = Return r) →
     ∃ d : doc,
       announcements_collection call.2 = (announcements_collection s ++ [d])%list
       ∧ d !! "_id" = Some (VOid new_id)
       ∧ d !! "message" = Some (VStr message)
       ∧ d !! "expiration_date" = Some (VStr expiration_date)
       ∧ d !! "created_by" = Some (VStr teacher_username)
       ∧ d !! "created_at" = Some (VStr (isoformat now))
       ∧ d !! "start_date"
         = (if str_truthy start_date then VStr <$> start_date else None)).
Proof.
  intros Hfresh. cbv zeta.
  destruct (create_announcement_cases now new_id message expiration_date
              start_date teacher_username s)
    as (_ & [(e' & Hraise & _)|(Ht & Ho & _ & Hret & Hstore)]).
  - split; [|by rewrite Hraise; intros [? ?]].
    rewrite Hraise. split; [by intros [? ?]|].
    intros (Ht & exp_date & He & Hst). exfalso.
    rewrite create_announcement_run, Hfresh in Hraise by done.
    unfold create_dates_outcome in Hraise. rewrite He in Hraise.
    destruct Hst as [->|[->|(x & st_date & -> & Hx & Hlt)]]; try done.
    destruct x as [|c x]; [done|]. cbn [str_truthy] in Hraise.
    change (default "" (Some (String c x))) with (String c x) in Hraise.
    by rewrite Hx, (datetime_ge_lt _ _ Hlt) in Hraise.
  - split.
    + split; [|by eauto]. intros _. split; [done|].
      unfold create_dates_outcome in Ho.
      destruct (parse_date expiration_date) as [exp_date|]; [|done].
      exists exp_date. split; [done|].
      destruct start_date as [[|c x]|]; [by eauto..| |by eauto].
      cbn [str_truthy] in Ho.
      change (default "" (Some (String c x))) with (String c x) in Ho.
      destruct (parse_date (String c x)) as [st_date|] eqn:Hx; [|done].
      do 2 right. exists (String c x), st_date. repeat split; [done|].
      apply datetime_ge_false. by destruct (datetime_ge st_date exp_date) as [[]|].
    + intros _. eexists. split; [exact Hstore|].
      destruct (new_announcement_fields now message expiration_date start_date
                  teacher_username) as (_ & _ & Hm & He & Hu & Hat & Hs).
      rewrite lookup_insert_eq, !lookup_insert_ne by done. done.
Qed.

(** X14. What a create call returns is the dictionary the driver was
    given: beside the string [id] it still carries the native [_id] that
    the driver added on insertion, unlike the documents get, list and
    update return. *)
Theorem create_returns_native_id (s s' : Store) (now : datetime) (new_id : oid)
    (message expiration_date : string) (start_date : option string)
    (teacher_username : string) (r : doc) :
  create_announcement now new_id message expiration_date start_date
    teacher_username s = (Return r, s') →
  r !! "_id" = Some (VOid new_id)
  ∧ r !! "id" = Some (VStr (str_ObjectId new_id))
  ∧ serialize_announcement r ≠ r.
Proof.
  intros Hc.
  destruct (create_announcement_cases now new_id message expiration_date
              start_date teacher_username s)
    as (_ & [(e' & Hraise & _)|(_ & _ & _ & Hret & _)]);
    rewrite Hc in *; [done|].
  cbn [fst] in Hret. injection Hret as ->.
  assert (∀ d : doc,
            (<["id" := VStr (str_ObjectId new_id)]>
               (<["_id" := VOid new_id]> d)) !! "_id" = Some (VOid new_id))
    as Hid by (intros d; by rewrite lookup_insert_ne, lookup_insert_eq).
  split; [apply Hid|]. split; [by rewrite lookup_insert_eq|].
  intros Heq. apply (f_equal (λ d : doc, d !! "_id")) in Heq.
  rewrite Hid in Heq. by eapply serialize_announcement_no_oid.
Qed.

(** X15. A create call by an existing teacher whose start_date and
    expiration_date both parse, one to a value with a UTC offset and the
    other to a value without, raises the TypeError of the comparison,
    which no handler catches, and inserts nothing. *)
Theorem create_mixed_offsets_unhandled (s : Store) (now : datetime)
    (new_id : oid) (message expiration_date start_date teacher_username : string)
    (st_date exp_date : datetime) :
  is_Some (find_one_by_id (VStr teacher_username) (teachers_collection s)) →
  parse_date expiration_date = Some exp_date →
  start_date ≠ "" →
  parse_date start_date = Some st_date →
  (utcoffset st_date = None ↔ utcoffset exp_date ≠ None) →
  create_announcement now new_id message expiration_date (Some start_date)
    teacher_username s = (Raise TypeError, s).
Proof.
  intros Ht He Hne Hs Hmixed. apply str_truthy_Some in Hne.
  rewrite create_announcement_run by done.
  unfold create_dates_outcome. rewrite He, Hne.
  change (default "" (Some start_date)) with start_date. rewrite Hs.
  unfold datetime_ge, datetime_cmp.
  destruct (utcoffset st_date) as [os|], (utcoffset exp_date) as [oe|];
    try done.
  - exfalso. assert (Some os = None) by (by apply Hmixed). done.
  - exfalso. by apply Hmixed.
Qed.

(** X16. A delete call by an existing teacher on a stored identifier
    returns the confirmation message, removes one document, leaves every
    document stored under another identifier as it was, and, the
    identifiers being unique, a get of the same identifier then fails with
    NotFound. *)
Theorem delete_removes_one_document (s : Store)
    (announcement_id teacher_username : string) (id : oid) (d : doc) :
  is_Some (find_one_by_id (VStr teacher_username) (teachers_collection s)) →
  ObjectId announcement_id = Some id →
  find_one_by_id (VOid id) (announcements_collection s) = Some d →
  let call := delete_announcement announcement_id teacher_username s in
  call.1 = Return {["message" := VStr "Announcement deleted successfully"]}
  ∧ S (length (announcements_collection call.2))
    = length (announcements_collection s)
  ∧ (∀ id', id' ≠ VOid id →
            find_one_by_id id' (announcements_collection call.2)
            = find_one_by_id id' (announcements_collection s))
  ∧ (unique_ids (announcements_collection s) →
     (get_announcement announcement_id call.2).1 = Raise NotFound).
Proof.
  intros Ht Hid Hd. cbv zeta.
  rewrite delete_announcement_run, Hid, Hd by done.
  cbn [fst snd announcements_collection with_announcements logged].
  split; [done|]. split; [by eapply delete_first_length|].
  split; [by intros; apply find_one_by_id_delete_first|].
  intros Hu. rewrite get_announcement_run, Hid.
  cbn [fst announcements_collection with_announcements logged].
  by rewrite delete_first_gone.
Qed.

End CreateDelete.

(** ** Listing, over any stored documents *)

Section ListingMore.
Context `{Runtime}.


(** X18. No document returned by list, get or update carries an ObjectId
    under [_id]. *)
Theorem returned_documents_are_shaped (s : Store) :
  (∀ now active_only l r (o : oid),
     (get_announcements now active_only s).1 = Return l →
     r ∈ l → r !! "_id" ≠ Some (VOid o))
  ∧ (∀ announcement_id r (o : oid),
       (get_announcement announcement_id s).1 = Return r →
       r !! "_id" ≠ Some (VOid o))
  ∧ (∀ announcement_id message expiration_date start_date teacher_username
       r (o : oid),
       (update_announcement announcement_id message expiration_date
          start_date teacher_username s).1 = Return r →
       r !! "_id" ≠ Some (VOid o)).
Proof.
  split; [|split].
  - intros now active_only l r o. rewrite get_announcements_run. cbn [fst].
    intros [= <-] Hr. apply list_elem_of_fmap in Hr as (d & -> & _).
    apply serialize_announcement_no_oid.
  - intros announcement_id r o. rewrite get_announcement_run.
    destruct (ObjectId announcement_id) as [id|]; [|done]. cbn [fst].
    destruct (find_one_by_id _ _); [|done]. intros [= <-].
    apply serialize_announcement_no_oid.
  - intros announcement_id message expiration_date start_date teacher_username
      r o Hret.
    destruct (update_announcement_cases announcement_id message
                expiration_date start_date teacher_username s)
      as (_ & [(e' & Hraise & _)
              |[(e' & id & old & Hraise & _)
               |(id & old & f1 & uf & _ & _ & _ & _ & _ & _ & Hr & _)]]);
      rewrite Hret in *; try done.
    injection Hr as ->. apply serialize_announcement_no_oid.
Qed.

(** X19. After a create call that returns, the listing with [active_only]
    false is, up to order, the listing before the call together with the
    returned document without its native [_id]. *)
Theorem create_then_list (s s' : Store) (now now' : datetime) (new_id : oid)
    (message expiration_date : string) (start_date : option string)
    (teacher_username : string) (r : doc) :
  create_announcement now new_id message expiration_date start_date
    teacher_username s = (Return r, s') →
  ∃ before after,
    (get_announcements now' false s).1 = Return before
    ∧ (get_announcements now' false s').1 = Return after
    ∧ after ≡ₚ delete "_id" r :: before.
Proof.
  intros Hc.
  destruct (create_announcement_cases now new_id message expiration_date
              start_date teacher_username s)
    as (_ & [(e' & Hraise & _)|(_ & _ & _ & Hret & Hstore)]);
    rewrite Hc in *; [done|].
  cbn [fst snd] in *. injection Hret as ->.
  rewrite !get_announcements_run, !filter_QAll. cbn [fst].
  do 2 eexists. split; [done|]. split; [done|].
  rewrite !merge_sort_Permutation, Hstore, fmap_app. cbn [fmap list_fmap].
  rewrite (serialize_announcement_oid _ new_id) by (by rewrite lookup_insert_eq).
  by rewrite Permutation_app_comm.
Qed.

End ListingMore.

(** ** Updates, when they succeed and when they do not *)

Section UpdateMore.
Context `{Runtime}.

Lemma order_outcome_valid x y dx dy :
  parse_date x = Some dx → parse_date y = Some dy → datetime_lt dx dy →
  order_outcome (Some (VStr x)) (Some (VStr y)) = Return ().
Proof.
  intros Hx Hy Hlt. unfold order_outcome.
  destruct (value_truthy _ && value_truthy _); [|done].
  by rewrite Hx, Hy, (datetime_ge_lt _ _ Hlt).
Qed.

(** X20. On a store the handlers have produced, an update call by an
    existing teacher on a stored identifier that supplies no date (a
    message or nothing) returns: the stored dates pass the ordering
    check.  The returned document holds the supplied message, or the
    stored one if none was supplied.  The parser is assumed to reject the
    empty string. *)
Theorem update_without_dates_succeeds (s : Store) (announcement_id : string)
    (message : option string) (teacher_username : string) (id : oid)
    (old : doc) :
  fromisoformat "" = None →
  reachable s →
  is_Some (find_one_by_id (VStr teacher_username) (teachers_collection s)) →
  ObjectId announcement_id = Some id →
  find_one_by_id (VOid id) (announcements_collection s) = Some old →
  ∃ r,
    (update_announcement announcement_id message None None teacher_username s).1
    = Return r
    ∧ r !! "message"
      = match message with
        | Some m => Some (VStr m)
        | None => old !! "message"
        end.
Proof.
  intros Hempty Hr Ht Hid Hold.
  pose proof (reachable_dates_valid s Hempty Hr) as Hall.
  rewrite Forall_forall in Hall.
  destruct (Hall old) as (e & de & He & Hpe & Hstart);
    [by eapply find_one_by_id_Some|].
  rewrite (update_announcement_run _ _ _ _ _ _ id old) by done.
  rewrite update_existing_run.
  assert (expiration_date_outcome None (message_fields message)
          = Return (message_fields message)) as Hf1 by done.
  assert (start_date_outcome None (message_fields message)
          = Return (message_fields message)) as Huf by done.
  rewrite Hf1. cbv zeta. rewrite Huf.
  destruct (update_fields_lookup _ _ _ _ _ Hf1 Huf)
    as (Hm & Hex & Hst & Hother & _).
  unfold dict_get_or. rewrite Hex, Hst, He. cbn [fmap option_fmap option_map str_truthy].
  assert (order_outcome (old !! "start_date") (Some (VStr e)) = Return ())
    as ->.
  { destruct (old !! "start_date") as [v|]; [|done].
    destruct Hstart as (x & dx & -> & Hx & Hlt).
    by eapply order_outcome_valid. }
  cbn [fst]. rewrite update_store_announcements by apply Hother, id_not_updated.
  cbn [announcements_collection logged].
  rewrite find_one_by_id_update_first, decide_True, Hold;
    [|done|by intros d; apply update_function_frame;
            [|apply id_not_updated]].
  cbn [fmap option_fmap option_map]. eexists. split; [done|].
  rewrite serialize_announcement_lookup by done.
  rewrite lookup_union_or, Hm. by destruct message.
Qed.

(** X21. An update call by an existing teacher that supplies no date, on
    a document whose stored start_date and expiration_date are non-empty
    strings of which one does not parse, fails with 400 "Invalid date
    format in start_date or expiration_date" and writes nothing, though
    the caller supplied no date. *)
Theorem update_stored_unparsable_dates (s : Store) (announcement_id : string)
    (message : option string) (teacher_username : string) (id : oid)
    (old : doc) (x y : string) :
  is_Some (find_one_by_id (VStr teacher_username) (teachers_collection s)) →
  ObjectId announcement_id = Some id →
  find_one_by_id (VOid id) (announcements_collection s) = Some old →
  old !! "start_date" = Some (VStr x) →
  old !! "expiration_date" = Some (VStr y) →
  x ≠ "" → y ≠ "" →
  parse_date x = None ∨ parse_date y = None →
  update_announcement announcement_id message None None teacher_username s
  = (Raise (HTTPException 400
              "Invalid date format in start_date or expiration_date"),
     logged (OpFindOne id) s).
Proof.
  intros Ht Hid Hold Hx Hy Hnx Hny Hbad.
  rewrite (update_announcement_run _ _ _ _ _ _ id old) by done.
  rewrite update_existing_run. cbn. unfold dict_get_or.
  assert (message_fields message !! "start_date" = None) as ->
    by (by destruct message).
  assert (message_fields message !! "expiration_date" = None) as ->
    by (by destruct message).
  rewrite Hx, Hy. unfold order_outcome.
  apply str_truthy_Some in Hnx, Hny. cbn [value_truthy].
  rewrite Hnx, Hny. cbn [andb].
  destruct (parse_date x) as [dx|]; [|done].
  destruct Hbad as [Hb|Hb]; [done|]. by rewrite Hb.
Qed.

(** X22. For an update call on an existing announcement by an existing
    teacher that does not supply the empty string as start_date and whose
    supplied dates parse: when the final start_date and expiration_date
    (the supplied string if one was supplied, the stored value otherwise)
    are non-empty strings that parse to a start not earlier than the
    expiration, the call fails with InvalidDateOrder and writes
    nothing. *)
Theorem update_rejects_order (s : Store) (announcement_id : string)
    (message expiration_date start_date : option string)
    (teacher_username : string) (id : oid) (old : doc)
    (x y : string) (dx dy : datetime) :
  is_Some (find_one_by_id (VStr teacher_username) (teachers_collection s)) →
  ObjectId announcement_id = Some id →
  find_one_by_id (VOid id) (announcements_collection s) = Some old →
  start_date ≠ Some "" →
  (∀ e, expiration_date = Some e → is_Some (parse_date e)) →
  (∀ z, start_date = Some z → is_Some (parse_date z)) →
  match start_date with
  | Some z => Some (VStr z)
  | None => old !! "start_date"
  end = Some (VStr x) →
  match expiration_date with
  | Some e => Some (VStr e)
  | None => old !! "expiration_date"
  end = Some (VStr y) →
  x ≠ "" → y ≠ "" →
  parse_date x = Some dx → parse_date y = Some dy →
  datetime_ge dx dy = Some true →
  update_announcement announcement_id message expiration_date start_date
    teacher_username s
  = (Raise InvalidDateOrder, logged (OpFindOne id) s).
Proof.
  intros Ht Hid Hold Hns Hexp Hst Hfs Hfe Hnx Hny Hx Hy Hge.
  rewrite (update_announcement_run _ _ _ _ _ _ id old) by done.
  rewrite update_existing_run.
  assert (∃ fields1,
            expiration_date_outcome expiration_date (message_fields message)
            = Return fields1) as [fields1 He].
  { unfold expiration_date_outcome. destruct expiration_date as [e|]; [|by eauto].
    destruct (Hexp e eq_refl) as [de ->]. by eauto. }
  assert (∃ update_fields,
            start_date_outcome start_date fields1 = Return update_fields)
    as [update_fields Hs].
  { unfold start_date_outcome. destruct start_date as [z|]; [|by eauto].
    destruct (String.eqb_spec z "") as [->|_]; [done|].
    destruct (Hst z eq_refl) as [dz ->]. by eauto. }
  rewrite He. cbv zeta. rewrite Hs.
  destruct (update_final_values old _ _ _ _ _ He Hs) as [Hvs Hve].
  rewrite Hvs, Hve.
  assert (match start_date with
          | Some "" | None => old !! "start_date"
          | Some z => Some (VStr z)
          end = Some (VStr x)) as ->.
  { destruct start_date as [[|c z]|]; done. }
  rewrite Hfe. unfold order_outcome.
  apply str_truthy_Some in Hnx, Hny. cbn [value_truthy].
  rewrite Hnx, Hny. cbn [andb]. rewrite Hx, Hy, Hge.
  unfold start_date_store. by rewrite bool_decide_eq_false_2.
Qed.

End UpdateMore.

(** ** Repeating an update *)

Section Repeat.
Context `{Runtime}.

(** The function an update applies to the document it found. *)
Lemma update_function_twice (update_fields : doc) (start_date : option string)
    (d : doc) :
  (start_date = Some "" → update_fields !! "start_date" = None) →
  update_fields
  ∪ (if bool_decide (start_date = Some "")
     then delete "start_date"
            (update_fields
             ∪ (if bool_decide (start_date = Some "")
                then delete "start_date" d else d))
     else update_fields
          ∪ (if bool_decide (start_date = Some "")
             then delete "start_date" d else d))
  = update_fields
    ∪ (if bool_decide (start_date = Some "") then delete "start_date" d else d).
Proof.
  intros Hs. apply map_eq. intros k. rewrite !lookup_union_or.
  destruct (update_fields !! k) as [v|] eqn:Hk; [done|].
  case_bool_decide as Hst; [|by rewrite lookup_union_or, Hk].
  destruct (decide (k = "start_date")) as [->|Hne].
  - by rewrite !lookup_delete_eq.
  - by rewrite !lookup_delete_ne, lookup_union_or, Hk, lookup_delete_ne.
Qed.

(** An update call returns when its three checks pass. *)
Lemma update_announcement_Return announcement_id message expiration_date
    start_date teacher_username s id old fields1 update_fields :
  is_Some (find_one_by_id (VStr teacher_username) (teachers_collection s)) →
  ObjectId announcement_id = Some id →
  find_one_by_id (VOid id) (announcements_collection s) = Some old →
  expiration_date_outcome expiration_date (message_fields message)
  = Return fields1 →
  start_date_outcome start_date fields1 = Return update_fields →
  order_outcome
    (dict_get_or update_fields "start_date" (old !! "start_date"))
    (dict_get_or update_fields "expiration_date" (old !! "expiration_date"))
  = Return () →
  (update_announcement announcement_id message expiration_date start_date
     teacher_username s).1
  = Return (serialize_announcement
              (update_fields
               ∪ (if bool_decide (start_date = Some "")
                  then delete "start_date" old else old)))
  ∧ announcements_collection
      (update_announcement announcement_id message expiration_date start_date
         teacher_username s).2
    = update_first (VOid id)
        (λ d, update_fields
              ∪ (if bool_decide (start_date = Some "")
                 then delete "start_date" d else d))
        (announcements_collection s).
Proof.
  intros Ht Hid Hold He Hs Ho.
  rewrite (update_announcement_run _ _ _ _ _ _ id old) by done.
  rewrite update_existing_run, He. cbv zeta. rewrite Hs, Ho.
  destruct (update_fields_lookup _ _ _ _ _ He Hs) as (_ & _ & _ & Hother & _).
  cbn [fst snd announcements_collection logged].
  rewrite update_store_announcements by apply Hother, id_not_updated.
  cbn [announcements_collection logged]. split; [|done].
  rewrite find_one_by_id_update_first, decide_True, Hold;
    [done..|].
  intros d. apply update_function_frame; [done|apply id_not_updated].
Qed.

(** X23. An update call that has returned can be repeated: the same call
    on the store it left returns the same document and leaves the
    announcements as they are. *)
Theorem update_twice (s s' : Store) (announcement_id : string)
    (message expiration_date start_date : option string)
    (teacher_username : string) (r : doc) :
  update_announcement announcement_id message expiration_date start_date
    teacher_username s = (Return r, s') →
  (update_announcement announcement_id message expiration_date start_date
     teacher_username s').1 = Return r
  ∧ announcements_collection
      (update_announcement announcement_id message expiration_date start_date
         teacher_username s').2 = announcements_collection s'.
Proof.
  intros Hu.
  destruct (update_announcement_cases announcement_id message expiration_date
              start_date teacher_username s)
    as (Hteachers & [(e' & Hraise & _)
            |[(e' & id & old & Hraise & _)
             |(id & old & f1 & uf & Ht & Hid & Hold & He & Hs & Ho & Hret
               & Hstore)]]);
    rewrite Hu in *; try done.
  cbn [fst snd] in *. injection Hret as ->.
  destruct (update_fields_lookup _ _ _ _ _ He Hs)
    as (_ & Hex & Hst & Hother & _).
  set (F := λ d : doc,
         uf ∪ (if bool_decide (start_date = Some "")
               then delete "start_date" d else d)) in *.
  assert (∀ d, F d !! "_id" = d !! "_id") as Hpres.
  { intros d. apply update_function_frame; [done|apply id_not_updated]. }
  assert (find_one_by_id (VOid id) (announcements_collection s') = Some (F old))
    as Hold'.
  { by rewrite Hstore, find_one_by_id_update_first, decide_True, Hold. }
  assert (start_date = Some "" → uf !! "start_date" = None) as Hsent.
  { intros ->. by rewrite Hst. }
  assert (order_outcome
            (dict_get_or uf "start_date" (F old !! "start_date"))
            (dict_get_or uf "expiration_date" (F old !! "expiration_date"))
          = Return ()) as Ho'.
  { unfold dict_get_or in *. unfold F. rewrite !lookup_union_or.
    destruct (uf !! "expiration_date") as [ve|] eqn:Hue.
    - destruct (uf !! "start_date") as [vs|] eqn:Hus; [done|].
      case_bool_decide; [by rewrite lookup_delete_eq|done].
    - assert ((if bool_decide (start_date = Some "")
               then delete "start_date" old else old) !! "expiration_date"
              = old !! "expiration_date") as ->
        by (case_bool_decide; [by rewrite lookup_delete_ne|done]).
      destruct (uf !! "start_date") as [vs|] eqn:Hus; [done|].
      case_bool_decide; [by rewrite lookup_delete_eq|done]. }
  assert (is_Some (find_one_by_id (VStr teacher_username)
                     (teachers_collection s'))) as Ht'
    by (by rewrite Hteachers).
  destruct (update_announcement_Return announcement_id message expiration_date
              start_date teacher_username s' id (F old) f1 uf
              Ht' Hid Hold' He Hs Ho') as [Hret' Hstore'].
  rewrite Hret', Hstore'. fold (F (F old)).
  assert (∀ d, F (F d) = F d) as Hidem.
  { intros d. unfold F at 1.
    assert ((if bool_decide (start_date = Some "")
             then delete "start_date" (F d) else F d)
            = (if bool_decide (start_date = Some "")
               then delete "start_date" (F d)
               else uf ∪ (if bool_decide (start_date = Some "")
                          then delete "start_date" d else d))) as ->
      by (by case_bool_decide).
    by apply update_function_twice. }
  split; [by rewrite Hidem|].
  rewrite Hstore, update_first_compose by done.
  apply update_first_ext. intros d _. apply Hidem.
Qed.

End Repeat.

(** ** Updates of documents whose dates are not strings *)

Section BsonDates.
Context `{Runtime}.

(** X24. An update call by an existing teacher that supplies no date, on
    a document whose stored start_date and expiration_date are BSON dates
    (the only kind the active filter selects), raises the TypeError of
    [replace] applied to a datetime, which no handler catches, and writes
    nothing. *)
Theorem update_on_bson_dates_unhandled (s : Store) (announcement_id : string)
    (message : option string) (teacher_username : string) (id : oid)
    (old : doc) (start expiration : Z) :
  is_Some (find_one_by_id (VStr teacher_username) (teachers_collection s)) →
  ObjectId announcement_id = Some id →
  find_one_by_id (VOid id) (announcements_collection s) = Some old →
  old !! "start_date" = Some (VDate start) →
  old !! "expiration_date" = Some (VDate expiration) →
  update_announcement announcement_id message None None teacher_username s
  = (Raise TypeError, logged (OpFindOne id) s).
Proof.
  intros Ht Hid Hold Hs He.
  rewrite (update_announcement_run _ _ _ _ _ _ id old) by done.
  rewrite update_existing_run. cbn. unfold dict_get_or.
  assert (message_fields message !! "start_date" = None) as ->
    by (by destruct message).
  assert (message_fields message !! "expiration_date" = None) as ->
    by (by destruct message).
  by rewrite Hs, He.
Qed.

End BsonDates.

(** ** The further properties on the school *)

Lemma school_teacher_exists :
  is_Some (find_one_by_id (VStr "t1") (teachers_collection school)).
Proof. eexists. apply school_teacher. Qed.

Lemma exam_id_parses : Reference.ObjectId exam_id = Some 7%N.
Proof. vm_refl. Qed.

Lemma exam_monday_returns :
  @update_announcement Reference.runtime exam_id (Some "Exam Monday") None None
    "t1" school = (Return exam_monday, exam_monday_call.2).
Proof. vm_refl. Qed.

Lemma failed_update_writes_witness :
  let call :=
    @update_announcement Reference.runtime exam_id None (Some "bad") (Some "")
      "t1" school in
  call.1 = Raise (HTTPException 400 "Invalid expiration date format")
  ∧ (announcements_collection call.2 = announcements_collection school
     ∨ (Some "" = Some ""
        ∧ ∃ id, Reference.ObjectId exam_id = Some id
                ∧ announcements_collection call.2
                  = update_first (VOid id) (delete "start_date")
                      (announcements_collection school))).
Proof.
  cbv zeta.
  assert ((@update_announcement Reference.runtime exam_id None (Some "bad")
             (Some "") "t1" school).1
          = Raise (HTTPException 400 "Invalid expiration date format"))
    as Hraise by vm_refl.
  split; [exact Hraise|].
  apply (@failed_update_writes Reference.runtime school exam_id None
           (Some "bad") (Some "") "t1" _ Hraise).
Defined.

Lemma update_identifier_errors_witness :
  @update_announcement Reference.runtime "not-a-valid-id" (Some "Exam Monday")
    (Some "bad") (Some "") "t1" school = (Raise InvalidIdentifier, school).
Proof.
  apply (@update_identifier_errors Reference.runtime school "not-a-valid-id"
           (Some "Exam Monday") (Some "bad") (Some "") "t1"
           school_teacher_exists).
Defined.

Lemma update_rejects_dates_witness :
  @update_announcement Reference.runtime exam_id None (Some "bad") None "t1"
    school
  = (Raise (HTTPException 400 "Invalid expiration date format"),
     logged (OpFindOne 7%N) school)
  ∧ @update_announcement Reference.runtime exam_id None None (Some "soon") "t1"
      school
    = (Raise (HTTPException 400 "Invalid start date format"),
       logged (OpFindOne 7%N) school).
Proof.
  destruct (@update_rejects_dates Reference.runtime school exam_id None
              (Some "bad") None "t1" 7%N exam school_teacher_exists
              exam_id_parses school_exam) as [Hexp _].
  destruct (@update_rejects_dates Reference.runtime school exam_id None
              None (Some "soon") "t1" 7%N exam school_teacher_exists
              exam_id_parses school_exam) as [_ Hstart].
  split.
  - apply (Hexp "bad"); [done|vm_refl].
  - apply (Hstart "soon"); [done|done|vm_refl|done].
Defined.

Lemma update_returns_what_get_returns_witness :
  (@get_announcement Reference.runtime exam_id exam_monday_call.2).1
  = Return exam_monday.
Proof.
  apply (@update_returns_what_get_returns Reference.runtime school _ exam_id
           (Some "Exam Monday") None None "t1" _ exam_monday_returns).
Defined.

Lemma reachable_unique_ids_witness :
  unique_ids (announcements_collection school).
Proof.
  apply (@reachable_unique_ids Reference.runtime school school_reachable).
Defined.

Lemma reachable_well_shaped_witness :
  Forall well_shaped (announcements_collection school).
Proof.
  apply (@reachable_well_shaped Reference.runtime school school_reachable).
Defined.


Lemma create_succeeds_witness :
  let call :=
    @create_announcement Reference.runtime morning 7%N "Exam Friday"
      "2030-01-01T00:00:00Z" (Some "2025-01-01T00:00:00Z") "t1" empty_school in
  ((∃ r, call.1 = Return r)
   ↔ is_Some (find_one_by_id (VStr "t1") (teachers_collection empty_school))
     ∧ ∃ exp_date,
         @parse_date Reference.runtime "2030-01-01T00:00:00Z" = Some exp_date
         ∧ (Some "2025-01-01T00:00:00Z" = None
            ∨ Some "2025-01-01T00:00:00Z" = Some ""
            ∨ ∃ x st_date,
                Some "2025-01-01T00:00:00Z" = Some x
                ∧ @parse_date Reference.runtime x = Some st_date
                ∧ datetime_lt st_date exp_date))
  ∧ ((∃ r, call.1 = Return r) →
     ∃ d : doc,
       announcements_collection call.2
       = (announcements_collection empty_school ++ [d])%list
       ∧ d !! "_id" = Some (VOid 7%N)
       ∧ d !! "message" = Some (VStr "Exam Friday")
       ∧ d !! "expiration_date" = Some (VStr "2030-01-01T00:00:00Z")
       ∧ d !! "created_by" = Some (VStr "t1")
       ∧ d !! "created_at" = Some (VStr (@isoformat Reference.runtime morning))
       ∧ d !! "start_date"
         = (if str_truthy (Some "2025-01-01T00:00:00Z")
            then VStr <$> Some "2025-01-01T00:00:00Z" else None)).
Proof.
  apply (@create_succeeds Reference.runtime empty_school morning 7%N
           "Exam Friday" "2030-01-01T00:00:00Z" (Some "2025-01-01T00:00:00Z")
           "t1").
  vm_refl.
Defined.

Lemma create_returns_native_id_witness :
  (<["id" := VStr exam_id]> exam) !! "_id" = Some (VOid 7%N)
  ∧ (<["id" := VStr exam_id]> exam) !! "id"
    = Some (VStr (@str_ObjectId Reference.runtime 7%N))
  ∧ @serialize_announcement Reference.runtime (<["id" := VStr exam_id]> exam)
    ≠ <["id" := VStr exam_id]> exam.
Proof.
  apply (@create_returns_native_id Reference.runtime empty_school school
           morning 7%N "Exam Friday" "2030-01-01T00:00:00Z"
           (Some "2025-01-01T00:00:00Z") "t1" _ school_created).
Defined.

Lemma create_mixed_offsets_unhandled_witness :
  @create_announcement Reference.runtime morning 8%N "Party"
    "2030-01-01T00:00:00Z" (Some "2025-01-01T00:00:00") "t1" school
  = (Raise TypeError, school).
Proof.
  apply (@create_mixed_offsets_unhandled Reference.runtime school morning 8%N
           "Party" "2030-01-01T00:00:00Z" "2025-01-01T00:00:00" "t1"
           (mk_datetime 2025 1 1 0 0 0 0 None)
           (mk_datetime 2030 1 1 0 0 0 0 (Some 0)) school_teacher_exists);
    [vm_refl|done|vm_refl|by split].
Defined.

Lemma delete_removes_one_document_witness :
  let call := @delete_announcement Reference.runtime exam_id "t1" school in
  call.1 = Return {["message" := VStr "Announcement deleted successfully"]}
  ∧ S (length (announcements_collection call.2))
    = length (announcements_collection school)
  ∧ (∀ id', id' ≠ VOid 7%N →
            find_one_by_id id' (announcements_collection call.2)
            = find_one_by_id id' (announcements_collection school))
  ∧ (unique_ids (announcements_collection school) →
     (@get_announcement Reference.runtime exam_id call.2).1 = Raise NotFound).
Proof.
  apply (@delete_removes_one_document Reference.runtime school exam_id "t1"
           7%N exam school_teacher_exists exam_id_parses school_exam).
Defined.

Lemma create_then_list_witness :
  ∃ before after,
    (@get_announcements Reference.runtime morning false empty_school).1
    = Return before
    ∧ (@get_announcements Reference.runtime morning false school).1
      = Return after
    ∧ after ≡ₚ delete "_id" (<["id" := VStr exam_id]> exam) :: before.
Proof.
  apply (@create_then_list Reference.runtime empty_school school morning
           morning 7%N "Exam Friday" "2030-01-01T00:00:00Z"
           (Some "2025-01-01T00:00:00Z") "t1" _ school_created).
Defined.

Lemma update_without_dates_succeeds_witness :
  ∃ r,
    (@update_announcement Reference.runtime exam_id (Some "Exam Monday") None
       None "t1" school).1 = Return r
    ∧ r !! "message" = Some (VStr "Exam Monday").
Proof.
  apply (@update_without_dates_succeeds Reference.runtime school exam_id
           (Some "Exam Monday") "t1" 7%N exam);
    [vm_refl|apply school_reachable|apply school_teacher_exists
    |apply exam_id_parses|apply school_exam].
Defined.

Lemma update_stored_unparsable_dates_witness :
  @update_announcement Reference.runtime "000000000000000000000009"
    (Some "Fair on Sunday") None None "t1" legacy
  = (Raise (HTTPException 400
              "Invalid date format in start_date or expiration_date"),
     logged (OpFindOne 9%N) legacy).
Proof.
  apply (@update_stored_unparsable_dates Reference.runtime legacy
           "000000000000000000000009" (Some "Fair on Sunday") "t1" 9%N fair
           "soon" "2030-01-01T00:00:00Z");
    [exists teacher_t1; vm_refl|vm_refl|vm_refl|vm_refl|vm_refl|done|done|].
  left. vm_refl.
Defined.

Lemma update_rejects_order_witness :
  @update_announcement Reference.runtime exam_id None None
    (Some "2031-01-01T00:00:00Z") "t1" school
  = (Raise InvalidDateOrder, logged (OpFindOne 7%N) school).
Proof.
  apply (@update_rejects_order Reference.runtime school exam_id None None
           (Some "2031-01-01T00:00:00Z") "t1" 7%N exam
           "2031-01-01T00:00:00Z" "2030-01-01T00:00:00Z"
           (mk_datetime 2031 1 1 0 0 0 0 (Some 0))
           (mk_datetime 2030 1 1 0 0 0 0 (Some 0)) school_teacher_exists
           exam_id_parses school_exam);
    [done|done| | |vm_refl|done|done|vm_refl|vm_refl|vm_refl].
  - intros z [= <-]. exists (mk_datetime 2031 1 1 0 0 0 0 (Some 0)). vm_refl.
  - reflexivity.
Defined.

Lemma update_twice_witness :
  (@update_announcement Reference.runtime exam_id (Some "Exam Monday") None
     None "t1" exam_monday_call.2).1 = Return exam_monday
  ∧ announcements_collection
      (@update_announcement Reference.runtime exam_id (Some "Exam Monday")
         None None "t1" exam_monday_call.2).2
    = announcements_collection exam_monday_call.2.
Proof.
  apply (@update_twice Reference.runtime school _ exam_id (Some "Exam Monday")
           None None "t1" _ exam_monday_returns).
Defined.

Example active_listing_archive :
  match (@get_announcements Reference.runtime morning true archive).1 with
  | Return l => (λ d : doc, d !! "id") <$> l
  | Raise _ => []
  end
  = [Some (VStr "000000000000000000000004");
     Some (VStr "000000000000000000000001")].
Proof. vm_refl. Qed.

Lemma update_on_bson_dates_unhandled_witness :
  @update_announcement Reference.runtime "000000000000000000000001"
    (Some "Open day") None None "t1" archive
  = (Raise TypeError, logged (OpFindOne 1%N) archive).
Proof.
  apply (@update_on_bson_dates_unhandled Reference.runtime archive
           "000000000000000000000001" (Some "Open day") "t1" 1%N
           {["_id" := VOid 1%N; "created_at" := VStr "2026-01-01T00:00:00";
             "start_date" := VDate 1735689600000;
             "expiration_date" := VDate 1893456000000]}
           1735689600000 1893456000000);
    [exists teacher_t1; vm_refl|vm_refl..].
Defined.
